(** * Hotel dashboard: the filter-and-aggregate pipeline of [app.py]

    [app.py] is one straight-line script over a pandas DataFrame.  The
    development embeds the part of it that computes data:

    - lines 14-16, the loader (date coercion, [room_mismatch]);
    - lines 23-30, the default values of the four sidebar widgets;
    - lines 33-39, the boolean-mask filter;
    - lines 51-56, the six scalar KPIs;
    - line 60, the monthly booking series;
    - line 81, the ten countries with most cancellations.

    A DataFrame is a list of rows, a column a list of cells.  A text cell
    is [option string] and a numeric cell [option Q], [None] being pandas'
    missing value (NaN); a datetime cell is a [Timestamp], nanoseconds
    since the epoch or [NaT].  Means are taken over exact rationals where
    pandas uses binary64. *)

From Stdlib Require Import List ZArith QArith Qround Bool String Ascii Lia.
From Stdlib Require Import Permutation Sorted Arith Lqa.
Import ListNotations.

Local Open Scope string_scope.
Local Open Scope list_scope.
Local Open Scope Z_scope.

Set Implicit Arguments.

(** ** Cells *)

Definition cell := option string.

Inductive Timestamp : Type :=
| NaT
| Ts (ns : Z).

Definition cell_eq_dec (a b : cell) : {a = b} + {a <> b}.
Proof. decide equality. apply string_dec. Defined.

(** Membership and de-duplication compare cells this way: two missing
    values count as the same key. *)
Definition cell_eqb (a b : cell) : bool :=
  if cell_eq_dec a b then true else false.

(** [column == "literal"]: a missing value is equal to nothing. *)
Definition eq_scalar (a : cell) (s : string) : bool :=
  match a with
  | Some x => String.eqb x s
  | None => false
  end.

(** [column != column], element by element: a missing value differs from
    everything, itself included. *)
Definition cell_ne (a b : cell) : bool :=
  match a, b with
  | Some x, Some y => negb (String.eqb x y)
  | _, _ => true
  end.

(** [column >= t] and [column <= t] on datetimes: [NaT] compares false. *)
Definition ts_ge (d : Timestamp) (t : Z) : bool :=
  match d with
  | Ts n => t <=? n
  | NaT => false
  end.

Definition ts_le (d : Timestamp) (t : Z) : bool :=
  match d with
  | Ts n => n <=? t
  | NaT => false
  end.

(** ** Calendar arithmetic behind [dt.to_period("M")] *)

Definition ns_per_day : Z := 86400 * 1000000000.

(** Year and month of a day number counted from 1970-01-01 (proleptic
    Gregorian calendar). *)
Definition civil_year_month (days : Z) : Z * Z :=
  let z := days + 719468 in
  let era := z / 146097 in
  let doe := z - era * 146097 in
  let yoe := (doe - doe / 1460 + doe / 36524 - doe / 146096) / 365 in
  let doy := doe - (365 * yoe + yoe / 4 - yoe / 100) in
  let mp := (5 * doy + 2) / 153 in
  let m := if mp <? 10 then mp + 3 else mp - 9 in
  let y := yoe + era * 400 in
  (if m <=? 2 then y + 1 else y, m).

(** A monthly period is its ordinal: months since 1970-01. *)
Definition Period := Z.

Definition to_period_M (d : Timestamp) : option Period :=
  match d with
  | Ts n =>
      let '(y, m) := civil_year_month (n / ns_per_day) in
      Some ((y - 1970) * 12 + (m - 1))
  | NaT => None
  end.

(** [datetime.date] of a timestamp, read back by [pd.to_datetime]: the
    midnight that starts its day. *)
Definition normalize (n : Z) : Z := n / ns_per_day * ns_per_day.

(** ** Rows *)

Module Col.
Record Booking : Type := mkBooking {
  hotel : cell;
  arrival_date : Timestamp;
  is_canceled : cell;
  customer_type : cell;
  lead_time : option Q;
  adr : option Q;
  total_guests : option Q;
  is_repeated_guest : cell;
  reserved_room_type : cell;
  assigned_room_type : cell;
  room_mismatch : bool;
  country : cell;
  meal : cell;
  required_car_parking_spaces : option Q;
  total_of_special_requests : option Q
}.
End Col.
Import Col.

Definition DataFrame := list Booking.

(** A row as [pd.read_csv] hands it over: the date is still text, and the
    file may or may not carry a [room_mismatch] column of its own. *)
Module Raw.
Record Row : Type := mkRow {
  hotel : cell;
  arrival_date : cell;
  is_canceled : cell;
  customer_type : cell;
  lead_time : option Q;
  adr : option Q;
  total_guests : option Q;
  is_repeated_guest : cell;
  reserved_room_type : cell;
  assigned_room_type : cell;
  room_mismatch : option bool;
  country : cell;
  meal : cell;
  required_car_parking_spaces : option Q;
  total_of_special_requests : option Q
}.

Definition with_room_mismatch (v : option bool) (r : Row) : Row :=
  mkRow (hotel r) (arrival_date r) (is_canceled r) (customer_type r)
        (lead_time r) (adr r) (total_guests r) (is_repeated_guest r)
        (reserved_room_type r) (assigned_room_type r) v
        (country r) (meal r) (required_car_parking_spaces r)
        (total_of_special_requests r).
End Raw.

(** ** Series operations *)

Module Series.

Definition eq (c : list cell) (s : string) : list bool :=
  map (fun x => eq_scalar x s) c.

Definition ne (a b : list cell) : list bool :=
  map (fun p => cell_ne (fst p) (snd p)) (combine a b).

Definition ge (c : list Timestamp) (t : Z) : list bool :=
  map (fun d => ts_ge d t) c.

Definition le (c : list Timestamp) (t : Z) : list bool :=
  map (fun d => ts_le d t) c.

Definition isin (c : list cell) (values : list cell) : list bool :=
  map (fun x => existsb (cell_eqb x) values) c.

(** [a & b] *)
Definition and (a b : list bool) : list bool :=
  map (fun p => andb (fst p) (snd p)) (combine a b).

(** [unique()]: the distinct values in order of first appearance. *)
Fixpoint unique_acc (seen : list cell) (c : list cell) : list cell :=
  match c with
  | [] => []
  | x :: rest =>
      if existsb (cell_eqb x) seen then unique_acc seen rest
      else x :: unique_acc (x :: seen) rest
  end.

Definition unique (c : list cell) : list cell := unique_acc [] c.

(** [min()] and [max()] of a datetime column skip [NaT]; with nothing
    left the answer is [NaT]. *)
Definition ts_min2 (a b : Timestamp) : Timestamp :=
  match a, b with
  | NaT, _ => b
  | _, NaT => a
  | Ts x, Ts y => Ts (Z.min x y)
  end.

Definition ts_max2 (a b : Timestamp) : Timestamp :=
  match a, b with
  | NaT, _ => b
  | _, NaT => a
  | Ts x, Ts y => Ts (Z.max x y)
  end.

Definition min (c : list Timestamp) : Timestamp := fold_right ts_min2 NaT c.
Definition max (c : list Timestamp) : Timestamp := fold_right ts_max2 NaT c.

End Series.

(** [df[mask]] *)
Fixpoint boolean_index (A : Type) (rows : list A) (mask : list bool) : list A :=
  match rows, mask with
  | r :: rows', b :: mask' =>
      if b then r :: boolean_index rows' mask' else boolean_index rows' mask'
  | _, _ => []
  end.

(** ** Loader, lines 14-16 *)

Section Loader.

(** [pd.to_datetime] on one piece of text: the timestamp, or [None]
    where pandas raises. *)
Variable to_datetime : string -> option Z.

Definition coerce_date (c : cell) : option Timestamp :=
  match c with
  | None => Some NaT
  | Some s => option_map Ts (to_datetime s)
  end.

(** Line 15 on a whole column: one bad value fails the conversion. *)
Fixpoint coerce_dates (c : list cell) : option (list Timestamp) :=
  match c with
  | [] => Some []
  | x :: rest =>
      match coerce_date x, coerce_dates rest with
      | Some d, Some ds => Some (d :: ds)
      | _, _ => None
      end
  end.

Definition assemble (r : Raw.Row) (d : Timestamp) (mm : bool) : Booking :=
  mkBooking (Raw.hotel r) d (Raw.is_canceled r) (Raw.customer_type r)
            (Raw.lead_time r) (Raw.adr r) (Raw.total_guests r)
            (Raw.is_repeated_guest r) (Raw.reserved_room_type r)
            (Raw.assigned_room_type r) mm (Raw.country r) (Raw.meal r)
            (Raw.required_car_parking_spaces r)
            (Raw.total_of_special_requests r).

Fixpoint assemble_all (rows : list Raw.Row) (ds : list Timestamp)
         (mms : list bool) : DataFrame :=
  match rows, ds, mms with
  | r :: rows', d :: ds', mm :: mms' =>
      assemble r d mm :: assemble_all rows' ds' mms'
  | _, _, _ => []
  end.

Definition load (rows : list Raw.Row) : option DataFrame :=
  match coerce_dates (map Raw.arrival_date rows) with
  | Some dates =>
      Some (assemble_all rows dates
              (Series.ne (map Raw.reserved_room_type rows)
                         (map Raw.assigned_room_type rows)))
  | None => None
  end.

End Loader.

(** ** Sidebar and filter, lines 23-39 *)

Record FilterSpec : Type := mkSpec {
  start_date : Z;
  end_date : Z;
  hotel_type : list cell;
  status : list cell;
  customer_type : list cell
}.

Definition filtered_df (df : DataFrame) (sp : FilterSpec) : DataFrame :=
  boolean_index df
    (Series.and
       (Series.and
          (Series.and
             (Series.and
                (Series.ge (map Col.arrival_date df) (start_date sp))
                (Series.le (map Col.arrival_date df) (end_date sp)))
             (Series.isin (map Col.hotel df) (hotel_type sp)))
          (Series.isin (map Col.is_canceled df) (status sp)))
       (Series.isin (map Col.customer_type df) (customer_type sp))).

(** What the four widgets return before the user touches them.  The date
    widget hands back calendar dates, so both bounds are read back as
    midnights; it has no value to show when the column holds no date. *)
Definition default_spec (df : DataFrame) : option FilterSpec :=
  match Series.min (map Col.arrival_date df),
        Series.max (map Col.arrival_date df) with
  | Ts min_date, Ts max_date =>
      Some (mkSpec (normalize min_date) (normalize max_date)
                   (Series.unique (map Col.hotel df))
                   (Series.unique (map Col.is_canceled df))
                   (Series.unique (map Col.customer_type df)))
  | _, _ => None
  end.


(** ** Scalar KPIs, lines 51-56 *)

Module Stats.

Fixpoint dropna (A : Type) (c : list (option A)) : list A :=
  match c with
  | [] => []
  | Some v :: rest => v :: dropna rest
  | None :: rest => dropna rest
  end.

Definition Qsum (l : list Q) : Q := fold_right Qplus 0%Q l.

(** [mean()]: missing values are skipped; with no value left the result
    is NaN, here [None]. *)
Definition mean (c : list (option Q)) : option Q :=
  match dropna c with
  | [] => None
  | vs => Some (Qsum vs / inject_Z (Z.of_nat (List.length vs)))%Q
  end.

(** Booleans average as 1 and 0. *)
Definition of_bool (b : bool) : option Q := Some (if b then 1%Q else 0%Q).

Definition mean_bool (c : list bool) : option Q := mean (map of_bool c).

(** Nearest integer, halves to the even neighbour. *)
Definition round_half_even (x : Q) : Z :=
  let f := Qfloor x in
  match Qcompare (x - inject_Z f) (1 # 2) with
  | Lt => f
  | Gt => f + 1
  | Eq => if Z.even f then f else f + 1
  end.

(** [round(x, ndigits)]; NaN stays NaN. *)
Definition round (x : option Q) (ndigits : nat) : option Q :=
  match x with
  | Some v =>
      let scale := inject_Z (10 ^ Z.of_nat ndigits) in
      Some (inject_Z (round_half_even (v * scale)) / scale)%Q
  | None => None
  end.

(** [x * 100] *)
Definition times100 (x : option Q) : option Q :=
  option_map (fun v => (v * 100)%Q) x.

End Stats.

(** Line 52 before scaling: the mean of the indicator column. *)
Definition cancellation_mean (view : DataFrame) : option Q :=
  Stats.mean_bool (Series.eq (map Col.is_canceled view) "Canceled").

Record KPIs : Type := mkKPIs {
  total_bookings : nat;
  cancellation_rate : option Q;
  avg_adr : option Q;
  avg_lead_time : option Q;
  guests_per_booking : option Q;
  repeated_guests : option Q
}.

(** The numbers behind the six [metric] calls; the f-strings only add a
    unit to each. *)
Definition kpis (view : DataFrame) : KPIs :=
  mkKPIs
    (List.length view)
    (Stats.round (Stats.times100 (cancellation_mean view)) 2)
    (Stats.round (Stats.mean (map Col.adr view)) 2)
    (Stats.round (Stats.mean (map Col.lead_time view)) 1)
    (Stats.round (Stats.mean (map Col.total_guests view)) 2)
    (Stats.round
       (Stats.times100
          (Stats.mean_bool (Series.eq (map Col.is_repeated_guest view) "Yes")))
       2).

(** A KPI shows the number [q]: never true of NaN. *)
Definition kpi_is (k : option Q) (q : Q) : Prop :=
  match k with
  | Some v => (v == q)%Q
  | None => False
  end.

(** ** Monthly booking series, line 60 *)

Module GroupBy.

(** One more row for key [k] in a table kept in ascending key order. *)
Fixpoint bump (k : Period) (acc : list (Period * nat)) : list (Period * nat) :=
  match acc with
  | [] => [(k, 1%nat)]
  | (k', n) :: rest =>
      if k <? k' then (k, 1%nat) :: acc
      else if k =? k' then (k', S n) :: rest
      else (k', n) :: bump k rest
  end.

Definition step (acc : list (Period * nat)) (k : option Period) :=
  match k with
  | Some p => bump p acc
  | None => acc
  end.

(** [groupby(keys).size()]: rows without a key belong to no group, groups
    come out in ascending key order. *)
Definition size (keys : list (option Period)) : list (Period * nat) :=
  fold_left step keys [].

End GroupBy.

Definition monthly (view : DataFrame) : list (Period * nat) :=
  GroupBy.size (map (fun r => to_period_M (Col.arrival_date r)) view).

(** Rows of [view] that arrive in month [p]. *)
Definition in_month (p : Period) (r : Booking) : bool :=
  match to_period_M (Col.arrival_date r) with
  | Some q => q =? p
  | None => false
  end.

Definition bucket (p : Period) (view : DataFrame) : nat :=
  List.length (filter (in_month p) view).

Definition sum_counts (A : Type) (s : list (A * nat)) : nat :=
  fold_right (fun e acc => (snd e + acc)%nat) 0%nat s.

(** ** Countries with most cancellations, line 81 *)

Module Counts.

Definition notna (x : cell) : bool :=
  match x with
  | Some _ => true
  | None => false
  end.

Definition count (k : cell) (c : list cell) : nat :=
  List.length (filter (cell_eqb k) c).

(** Position of the first occurrence of [k] in [c]. *)
Fixpoint first_pos (k : cell) (c : list cell) : nat :=
  match c with
  | [] => 0%nat
  | x :: rest => if cell_eqb k x then 0%nat else S (first_pos k rest)
  end.

(** Stable insertion into a list in descending count order: the new
    entry goes in front of the first entry that is not larger. *)
Fixpoint insert_desc (e : cell * nat) (l : list (cell * nat)) : list (cell * nat) :=
  match l with
  | [] => [e]
  | y :: rest =>
      if (snd e <? snd y)%nat then y :: insert_desc e rest else e :: l
  end.

Definition sort_desc (l : list (cell * nat)) : list (cell * nat) :=
  fold_right insert_desc [] l.

(** [value_counts()]: one entry per distinct value that is not missing,
    keys first met first, then ordered by descending count. *)
Definition value_counts (c : list cell) : list (cell * nat) :=
  let v := filter notna c in
  sort_desc (map (fun k => (k, count k v)) (Series.unique v)).

(** [nlargest(n)], which keeps the first of equal counts. *)
Definition nlargest (n : nat) (s : list (cell * nat)) : list (cell * nat) :=
  firstn n (sort_desc s).

End Counts.

Definition canceled_countries (view : DataFrame) : list cell :=
  map Col.country
      (boolean_index view (Series.eq (map Col.is_canceled view) "Canceled")).

Definition top_countries (view : DataFrame) : list (cell * nat) :=
  Counts.nlargest 10 (Counts.value_counts (canceled_countries view)).

(** ** Sample data *)

Definition day (n : Z) : Z := n * ns_per_day.

Definition row (h : string) (d : Timestamp) (c : string) (ct : string)
           (co : string) : Booking :=
  mkBooking (Some h) d (Some c) (Some ct) (Some 10%Q) (Some 100%Q)
            (Some 2%Q) (Some "No") (Some "A") (Some "A") false (Some co)
            (Some "BB") (Some 0%Q) (Some 0%Q).

Definition df_sample : DataFrame :=
  [ row "Resort Hotel" (Ts (day 17409)) "Canceled" "Transient" "PRT";
    row "City Hotel" (Ts (day 17300)) "Canceled" "Transient" "PRT";
    row "City Hotel" (Ts (day 17301)) "Canceled" "Group" "ESP";
    row "City Hotel" (Ts (day 17350)) "Not Canceled" "Group" "FRA" ].

Definition spec_sample : FilterSpec :=
  mkSpec (day 17300) (day 17409)
         [Some "Resort Hotel"; Some "City Hotel"]
         [Some "Canceled"; Some "Not Canceled"]
         [Some "Transient"; Some "Group"].

(** ** Row-level reading of the filter *)

(** The five masks of lines 34-38 at one row. *)
Definition keeps (sp : FilterSpec) (r : Booking) : bool :=
  ts_ge (Col.arrival_date r) (start_date sp)
  && ts_le (Col.arrival_date r) (end_date sp)
  && existsb (cell_eqb (Col.hotel r)) (hotel_type sp)
  && existsb (cell_eqb (Col.is_canceled r)) (status sp)
  && existsb (cell_eqb (Col.customer_type r)) (customer_type sp).

(** [d] is a date of the closed interval from [lo] to [hi]. *)
Definition within (d : Timestamp) (lo hi : Z) : Prop :=
  match d with
  | Ts n => lo <= n <= hi
  | NaT => False
  end.

Definition is_canceled_row (r : Booking) : bool :=
  eq_scalar (Col.is_canceled r) "Canceled".

(** [room_mismatch] agrees with the two room types of the row. *)
Definition mismatch_derived (r : Booking) : Prop :=
  Col.room_mismatch r
  = cell_ne (Col.reserved_room_type r) (Col.assigned_room_type r).

Definition count_canceled (view : DataFrame) : nat :=
  List.length (filter is_canceled_row view).

(** The KPIs the script shows when no row is left. *)
Definition kpis_no_data : KPIs := mkKPIs 0 None None None None None.

Definition spec_inverted : FilterSpec :=
  mkSpec (day 17409) (day 17300)
         [Some "Resort Hotel"; Some "City Hotel"]
         [Some "Canceled"; Some "Not Canceled"]
         [Some "Transient"; Some "Group"].

(** Count recorded for month [k] in a table, 0 when it has no entry. *)
Fixpoint count_of (k : Period) (acc : list (Period * nat)) : nat :=
  match acc with
  | [] => 0%nat
  | (k', n) :: rest => if k =? k' then n else count_of k rest
  end.

(** Occurrences of [k] among keys, missing keys aside. *)
Fixpoint occurrences (k : Period) (keys : list (option Period)) : nat :=
  match keys with
  | [] => 0%nat
  | Some q :: rest =>
      if q =? k then S (occurrences k rest) else occurrences k rest
  | None :: rest => occurrences k rest
  end.

(** A well-formed table: strictly ascending months, no empty bucket. *)
Definition table_ok (acc : list (Period * nat)) : Prop :=
  StronglySorted Z.lt (map fst acc)
  /\ Forall (fun e => (1 <= snd e)%nat) acc.

(** Non-missing countries of the canceled rows, in row order. *)
Definition ranked_countries (view : DataFrame) : list cell :=
  filter Counts.notna (canceled_countries view).

(** Entry [a] is ranked ahead of entry [b]: its count is larger, or the
    counts are equal and its country is met first in [c]. *)
Definition ranks_before (c : list cell) (a b : cell * nat) : Prop :=
  (snd b < snd a)%nat
  \/ (snd a = snd b
      /\ (Counts.first_pos (fst a) c < Counts.first_pos (fst b) c)%nat).

Definition met_before (c : list cell) (a b : cell) : Prop :=
  (Counts.first_pos a c < Counts.first_pos b c)%nat.


(** A file whose own [room_mismatch] column disagrees with its room
    types. *)
Definition raw_sample : list Raw.Row :=
  [ Raw.mkRow (Some "City Hotel") (Some "2017-05-14") (Some "Canceled")
              (Some "Transient") (Some 10%Q) (Some 100%Q) (Some 2%Q)
              (Some "No") (Some "A") (Some "D") (Some false) (Some "PRT")
              (Some "BB") (Some 0%Q) (Some 0%Q);
    Raw.mkRow (Some "City Hotel") None (Some "Canceled")
              (Some "Transient") (Some 10%Q) (Some 100%Q) (Some 2%Q)
              (Some "No") (Some "A") (Some "A") (Some true) (Some "PRT")
              (Some "BB") (Some 0%Q) (Some 0%Q) ].

(** A stand-in for the date parser that knows one date. *)
Definition to_datetime_sample (s : string) : option Z :=
  if String.eqb s "2017-05-14" then Some (day 17300) else None.

(** A dataset with one arrival date missing. *)
Definition df_missing_date : DataFrame :=
  [ row "City Hotel" NaT "Canceled" "Transient" "PRT";
    row "City Hotel" (Ts (day 17300)) "Canceled" "Transient" "PRT" ].

(** A dataset whose only arrival is at noon. *)
Definition df_noon : DataFrame :=
  [ row "City Hotel" (Ts (day 17300 + 12 * 3600 * 1000000000))
        "Canceled" "Transient" "PRT" ].

(** [l1] is [l2] with some elements left out, the others in place. *)
Inductive Subseq (A : Type) : list A -> list A -> Prop :=
| Subseq_nil : Subseq [] []
| Subseq_skip (x : A) (l1 l2 : list A) : Subseq l1 l2 -> Subseq l1 (x :: l2)
| Subseq_keep (x : A) (l1 l2 : list A) :
    Subseq l1 l2 -> Subseq (x :: l1) (x :: l2).

(** [a] selects no more than [b]: a date interval inside that of [b],
    and selections among those of [b]. *)
Definition narrower (a b : FilterSpec) : Prop :=
  start_date b <= start_date a
  /\ end_date a <= end_date b
  /\ incl (hotel_type a) (hotel_type b)
  /\ incl (status a) (status b)
  /\ incl (customer_type a) (customer_type b).

Definition spec_city_may : FilterSpec :=
  mkSpec (day 17300) (day 17350) [Some "City Hotel"]
         [Some "Canceled"] [Some "Transient"; Some "Group"].


(** Row [r] of the loaded dataset comes from row [raw] of the file: its
    date is the coerced text, its [room_mismatch] is derived, every other
    column is copied. *)
Definition loaded_from (to_datetime : string -> option Z) (raw : Raw.Row)
           (r : Booking) : Prop :=
  coerce_date to_datetime (Raw.arrival_date raw) = Some (Col.arrival_date r)
  /\ r = assemble raw (Col.arrival_date r)
                  (cell_ne (Raw.reserved_room_type raw)
                           (Raw.assigned_room_type raw)).

(** ** Month labels of the charts, lines 61 and 104 *)

(** Month of a day number, as [to_period_M] computes it. *)
Definition period_of_day (d : Z) : Period :=
  let '(y, m) := civil_year_month d in (y - 1970) * 12 + (m - 1).

(** Day number of a calendar date, counted from 1970-01-01. *)
Definition days_from_civil (y m d : Z) : Z :=
  let y' := if m <=? 2 then y - 1 else y in
  let era := y' / 400 in
  let yoe := y' - era * 400 in
  let mp := if m <=? 2 then m + 9 else m - 3 in
  let doy := (153 * mp + 2) / 5 + d - 1 in
  let doe := yoe * 365 + yoe / 4 - yoe / 100 + doy in
  era * 146097 + doe - 719468.

Definition period_first_day (p : Period) : Z :=
  days_from_civil (1970 + p / 12) (p mod 12 + 1) 1.

(** First instant of a month. *)
Definition period_start (p : Period) : Z := period_first_day p * ns_per_day.

(** [dt.to_timestamp()] on a monthly period. *)
Definition to_timestamp (p : Period) : Timestamp := Ts (period_start p).


(** The steps of [civil_year_month], one by one: the 400-year era of a
    day, the day within the era, the year within the era, the day within
    the year counted from 1 March, the month counted from March. *)
Definition era_of (d : Z) : Z := (d + 719468) / 146097.

Definition doe_of (d : Z) : Z := d + 719468 - era_of d * 146097.

Definition yoe_of (doe : Z) : Z :=
  (doe - doe / 1460 + doe / 36524 - doe / 146096) / 365.

Definition doy_of (doe : Z) : Z :=
  doe - (365 * yoe_of doe + yoe_of doe / 4 - yoe_of doe / 100).

Definition mp_of (doy : Z) : Z := (5 * doy + 2) / 153.

(** ** Monthly average of parking spaces, lines 103-104 *)

Module GroupMean.

(** One more value for key [k] in a table of groups kept in ascending
    key order; the values of a group stay in row order. *)
Fixpoint push (k : Period) (v : option Q)
         (acc : list (Period * list (option Q))) :
  list (Period * list (option Q)) :=
  match acc with
  | [] => [(k, [v])]
  | (k', vs) :: rest =>
      if k <? k' then (k, [v]) :: acc
      else if k =? k' then (k', vs ++ [v]) :: rest
      else (k', vs) :: push k v rest
  end.

Definition step (acc : list (Period * list (option Q)))
           (kv : option Period * option Q) :=
  match fst kv with
  | Some p => push p (snd kv) acc
  | None => acc
  end.

(** [groupby(keys)[column]]: the values of each group. *)
Definition groups (keys : list (option Period)) (vals : list (option Q)) :
  list (Period * list (option Q)) :=
  fold_left step (combine keys vals) [].

(** [groupby(keys)[column].mean()] *)
Definition mean (keys : list (option Period)) (vals : list (option Q)) :
  list (Period * option Q) :=
  map (fun g => (fst g, Stats.mean (snd g))) (groups keys vals).

End GroupMean.

Definition parking_month (view : DataFrame) : list (Period * option Q) :=
  GroupMean.mean (map (fun r => to_period_M (Col.arrival_date r)) view)
                 (map Col.required_car_parking_spaces view).

(** Line 104: the series as it is plotted. *)
Definition parking_chart (view : DataFrame) : list (Timestamp * option Q) :=
  map (fun e => (to_timestamp (fst e), snd e)) (parking_month view).

(** Values recorded for month [k] in a table of groups. *)
Fixpoint values_of (k : Period) (acc : list (Period * list (option Q))) :
  list (option Q) :=
  match acc with
  | [] => []
  | (k', vs) :: rest => if k =? k' then vs else values_of k rest
  end.

(** Values paired with key [k], in order. *)
Fixpoint picks (k : Period) (kvs : list (option Period * option Q)) :
  list (option Q) :=
  match kvs with
  | [] => []
  | (Some q, v) :: rest => if q =? k then v :: picks k rest else picks k rest
  | (None, _) :: rest => picks k rest
  end.

(** Group sizes of a table of groups. *)
Definition sizes (acc : list (Period * list (option Q))) : list (Period * nat) :=
  map (fun g => (fst g, List.length (snd g))) acc.

(** ** Line 81 with the library's sorts left open *)



(** One entry per distinct value that is not missing, keys first met
    first: [value_counts()] before it sorts. *)
Definition tallies (c : list cell) : list (cell * nat) :=
  let v := filter Counts.notna c in
  map (fun k => (k, Counts.count k v)) (Series.unique v).

Definition value_counts_by (sort : list (cell * nat) -> list (cell * nat))
           (c : list cell) : list (cell * nat) :=
  sort (tallies c).

Definition nlargest_by (sort : list (cell * nat) -> list (cell * nat))
           (n : nat) (s : list (cell * nat)) : list (cell * nat) :=
  firstn n (sort s).

(** Line 81, the sort inside [value_counts()] and the sort inside
    [nlargest(10)] being any two sorts that keep the promise. *)
Definition top_countries_by
           (sort_counts sort_largest : list (cell * nat) -> list (cell * nat))
           (view : DataFrame) : list (cell * nat) :=
  nlargest_by sort_largest 10
              (value_counts_by sort_counts (canceled_countries view)).




(** * Properties *)

(** ** Calendar *)

(** 2017-08-31 falls in August 2017, month 571 after January 1970. *)
Example period_2017_08 : to_period_M (Ts (day 17409)) = Some 571.
Proof. reflexivity. Qed.

(** The leap day of 2000 and the day after it. *)
Example period_leap_day :
  civil_year_month 11016 = (2000, 2) /\ civil_year_month 11017 = (2000, 3).
Proof. split; reflexivity. Qed.

(** The day before the epoch is in December 1969. *)
Example period_before_epoch : to_period_M (Ts (-1)) = Some (-1).
Proof. reflexivity. Qed.

(** Noon is read back as the midnight before it. *)
Example normalize_noon :
  normalize (day 17300 + 12 * 3600 * 1000000000) = day 17300.
Proof. reflexivity. Qed.

(** ** Filter *)

Lemma cell_eqb_eq (a b : cell) : cell_eqb a b = true <-> a = b.
Proof.
  unfold cell_eqb. destruct (cell_eq_dec a b); split; congruence.
Qed.

Lemma cell_eqb_refl (a : cell) : cell_eqb a a = true.
Proof. now apply cell_eqb_eq. Qed.

Lemma existsb_cell_In (x : cell) (l : list cell) :
  existsb (cell_eqb x) l = true <-> In x l.
Proof.
  rewrite existsb_exists. split.
  - intros [y [Hy He]]. apply cell_eqb_eq in He. now subst.
  - intros H. exists x. split; [assumption | apply cell_eqb_refl].
Qed.

Lemma filtered_df_filter (df : DataFrame) (sp : FilterSpec) :
  filtered_df df sp = filter (keeps sp) df.
Proof.
  unfold filtered_df, Series.and, Series.ge, Series.le, Series.isin.
  induction df as [| r df IH]; [reflexivity |].
  cbn [map combine boolean_index filter fst snd].
  rewrite IH. reflexivity.
Qed.

Lemma keeps_iff (sp : FilterSpec) (r : Booking) :
  keeps sp r = true <->
  within (Col.arrival_date r) (start_date sp) (end_date sp)
  /\ In (Col.hotel r) (hotel_type sp)
  /\ In (Col.is_canceled r) (status sp)
  /\ In (Col.customer_type r) (customer_type sp).
Proof.
  unfold keeps, within.
  rewrite !andb_true_iff, !existsb_cell_In.
  destruct (Col.arrival_date r) as [| n]; cbn [ts_ge ts_le].
  - intuition discriminate.
  - rewrite !Z.leb_le. tauto.
Qed.

(** C1. Every row of the filtered view is a row of the dataset, and a
    row of the dataset is in the view exactly when its arrival date lies
    in the closed interval of the filter and its hotel, its status and
    its customer type are among the selected values. *)
Theorem filtered_df_membership (df : DataFrame) (sp : FilterSpec) :
  incl (filtered_df df sp) df
  /\ forall r : Booking,
       In r (filtered_df df sp) <->
       In r df
       /\ within (Col.arrival_date r) (start_date sp) (end_date sp)
       /\ In (Col.hotel r) (hotel_type sp)
       /\ In (Col.is_canceled r) (status sp)
       /\ In (Col.customer_type r) (customer_type sp).
Proof.
  rewrite filtered_df_filter. split.
  - apply incl_filter.
  - intros r. rewrite filter_In, keeps_iff. reflexivity.
Qed.

Lemma filter_none (A : Type) (p : A -> bool) (l : list A) :
  (forall x, In x l -> p x = false) -> filter p l = [].
Proof.
  induction l as [| a l IH]; intros H; [reflexivity |].
  cbn. rewrite (H a (or_introl Logic.eq_refl)).
  apply IH. intros x Hx. apply H. now right.
Qed.

Lemma filter_all (A : Type) (p : A -> bool) (l : list A) :
  (forall x, In x l -> p x = true) -> filter p l = l.
Proof.
  induction l as [| a l IH]; intros H; [reflexivity |].
  cbn. rewrite (H a (or_introl Logic.eq_refl)).
  f_equal. apply IH. intros x Hx. apply H. now right.
Qed.

Lemma keeps_false_iff (sp : FilterSpec) (r : Booking) :
  ~ (within (Col.arrival_date r) (start_date sp) (end_date sp)
     /\ In (Col.hotel r) (hotel_type sp)
     /\ In (Col.is_canceled r) (status sp)
     /\ In (Col.customer_type r) (customer_type sp)) ->
  keeps sp r = false.
Proof.
  intros H. destruct (keeps sp r) eqn:E; [| reflexivity].
  apply keeps_iff in E. contradiction.
Qed.

Lemma inverted_range_empty (df : DataFrame) (sp : FilterSpec) :
  end_date sp < start_date sp -> filtered_df df sp = [].
Proof.
  intros Hlt. rewrite filtered_df_filter. apply filter_none.
  intros r _. apply keeps_false_iff. intros [Hw _].
  unfold within in Hw. destruct (Col.arrival_date r); [assumption | lia].
Qed.

(** C4. An empty selection in any of the three multiselects leaves no
    row: nothing falls back to all values. *)
Theorem empty_selection_empty_view (df : DataFrame) (sp : FilterSpec) :
  hotel_type sp = [] \/ status sp = [] \/ customer_type sp = [] ->
  filtered_df df sp = [].
Proof.
  intros H. rewrite filtered_df_filter. apply filter_none.
  intros r _. apply keeps_false_iff. intros (_ & Hh & Hs & Hc).
  destruct H as [H | [H | H]]; rewrite H in *; contradiction.
Qed.

Lemma empty_selection_empty_view_witness :
  filtered_df df_sample
    (mkSpec (day 17300) (day 17409) [Some "City Hotel"] []
            [Some "Transient"]) = [].
Proof.
  apply empty_selection_empty_view. right. left. reflexivity.
Defined.

(** ** KPIs *)

Lemma dropna_of_bool (bs : list bool) :
  Stats.dropna (map Stats.of_bool bs)
  = map (fun b : bool => if b then 1%Q else 0%Q) bs.
Proof.
  induction bs as [| b bs IH]; [reflexivity |].
  cbn. now rewrite IH.
Qed.

Lemma Qsum_indicator (bs : list bool) :
  (Stats.Qsum (map (fun b : bool => if b then 1 else 0) bs)
   == inject_Z (Z.of_nat (List.length (filter (fun b => b) bs))))%Q.
Proof.
  induction bs as [| b bs IH]; [reflexivity |].
  cbn [map Stats.Qsum fold_right filter].
  fold (Stats.Qsum (map (fun b : bool => if b then 1%Q else 0%Q) bs)).
  rewrite IH. destruct b.
  - cbn [List.length]. rewrite Nat2Z.inj_succ, <- Z.add_1_l, inject_Z_plus.
    reflexivity.
  - apply Qplus_0_l.
Qed.

Lemma filter_map_length (A B : Type) (f : A -> B) (p : B -> bool) (l : list A) :
  List.length (filter p (map f l))
  = List.length (filter (fun x => p (f x)) l).
Proof.
  induction l as [| a l IH]; [reflexivity |].
  cbn. destruct (p (f a)); cbn; now rewrite IH.
Qed.

Lemma Qdiv_of_nat (a : Z) (n : nat) :
  (0 < n)%nat ->
  (inject_Z a / inject_Z (Z.of_nat n) == a # Pos.of_nat n)%Q.
Proof.
  intros Hn. rewrite Qmake_Qdiv.
  replace (Z.pos (Pos.of_nat n)) with (Z.of_nat n); [reflexivity |].
  destruct n as [| m]; [lia |].
  now rewrite <- Pos.of_nat_succ, Zpos_P_of_succ_nat, Nat2Z.inj_succ.
Qed.

Lemma mean_bool_value (b : bool) (bs : list bool) :
  kpi_is (Stats.mean_bool (b :: bs))
         (Z.of_nat (List.length (filter (fun x => x) (b :: bs)))
          # Pos.of_nat (List.length (b :: bs))).
Proof.
  unfold Stats.mean_bool, Stats.mean.
  rewrite dropna_of_bool.
  cbn [map kpi_is].
  change ((if b then 1%Q else 0%Q)
          :: map (fun b0 : bool => if b0 then 1%Q else 0%Q) bs)
    with (map (fun b0 : bool => if b0 then 1%Q else 0%Q) (b :: bs)).
  rewrite Qsum_indicator, length_map.
  apply Qdiv_of_nat. cbn. lia.
Qed.

(** C2, as the code has it.  Over a view with at least one row the
    cancellation rate, the mean of the indicator [is_canceled ==
    "Canceled"] that line 52 goes on to show as a percentage, is the
    number of such rows divided by the number of rows; over the empty
    view the mean is NaN and so is the KPI. *)
Theorem cancellation_rate_value :
  cancellation_mean [] = None
  /\ cancellation_rate (kpis []) = None
  /\ forall (r : Booking) (view : DataFrame),
       kpi_is (cancellation_mean (r :: view))
              (Z.of_nat (count_canceled (r :: view))
               # Pos.of_nat (List.length (r :: view))).
Proof.
  split; [reflexivity | split; [reflexivity |]].
  intros r view. unfold cancellation_mean, Series.eq, count_canceled.
  pose proof (mean_bool_value
                (eq_scalar (Col.is_canceled r) "Canceled")
                (map (fun x => eq_scalar x "Canceled")
                     (map Col.is_canceled view))) as H.
  change (eq_scalar (Col.is_canceled r) "Canceled"
          :: map (fun x => eq_scalar x "Canceled") (map Col.is_canceled view))
    with (map (fun x => eq_scalar x "Canceled")
              (map Col.is_canceled (r :: view))) in H.
  rewrite !filter_map_length, !length_map in H.
  exact H.
Qed.

(** C2 fails as stated: with every hotel type deselected the view is
    empty and the cancellation rate is NaN, not 0. *)
Lemma cancellation_rate_empty_not_zero :
  filtered_df df_sample
    (mkSpec (day 17300) (day 17409) [] [Some "Canceled"] [Some "Group"]) = []
  /\ cancellation_mean
       (filtered_df df_sample
          (mkSpec (day 17300) (day 17409) [] [Some "Canceled"]
                  [Some "Group"])) = None
  /\ ~ kpi_is
       (cancellation_rate
          (kpis
             (filtered_df df_sample
                (mkSpec (day 17300) (day 17409) [] [Some "Canceled"]
                        [Some "Group"])))) 0.
Proof.
  repeat split; try reflexivity; intros H; exact H.
Qed.

(** C3, as the code has it.  When the start date is after the end date
    the view is empty whatever the dataset, the count of bookings is 0
    and the five KPIs that are means are NaN. *)
Theorem inverted_range_no_data (df : DataFrame) (sp : FilterSpec) :
  end_date sp < start_date sp ->
  filtered_df df sp = [] /\ kpis (filtered_df df sp) = kpis_no_data.
Proof.
  intros Hlt. rewrite (inverted_range_empty df sp Hlt).
  split; reflexivity.
Qed.

Lemma inverted_range_no_data_witness :
  end_date spec_inverted < start_date spec_inverted
  /\ filtered_df df_sample spec_inverted = []
  /\ kpis (filtered_df df_sample spec_inverted) = kpis_no_data.
Proof.
  split; [vm_compute; reflexivity |].
  apply (inverted_range_no_data df_sample spec_inverted).
  vm_compute. reflexivity.
Defined.

(** C3 fails as stated: with the bounds swapped the cancellation rate is
    NaN, while the sentinel the claim names for it is 0. *)
Lemma inverted_range_rate_not_zero :
  end_date spec_inverted < start_date spec_inverted
  /\ ~ kpi_is (cancellation_rate (kpis (filtered_df df_sample spec_inverted))) 0.
Proof.
  split; [vm_compute; reflexivity | intros H; exact H].
Qed.

(** ** Monthly series *)

Section BumpInvariants.

Lemma bump_keys (P : Period -> Prop) (k : Period) (acc : list (Period * nat)) :
  P k -> Forall P (map fst acc) -> Forall P (map fst (GroupBy.bump k acc)).
Proof.
  intros Hk. induction acc as [| [k' n] rest IH]; intros Hacc; cbn.
  - constructor; [assumption | constructor].
  - inversion Hacc as [| ? ? Hk' Hrest]; subst.
    destruct (k <? k'); [| destruct (k =? k')]; cbn.
    + constructor; assumption.
    + constructor; assumption.
    + constructor; [assumption | apply IH; assumption].
Qed.

Lemma bump_sorted (k : Period) (acc : list (Period * nat)) :
  StronglySorted Z.lt (map fst acc) ->
  StronglySorted Z.lt (map fst (GroupBy.bump k acc)).
Proof.
  induction acc as [| [k' n] rest IH]; intros Hs; cbn.
  - repeat constructor.
  - cbn in Hs. inversion Hs as [| ? ? Hrest Hall]; subst.
    destruct (k <? k') eqn:Elt; [| destruct (k =? k') eqn:Eeq]; cbn.
    + apply Z.ltb_lt in Elt. constructor; [exact Hs |].
      constructor; [assumption |].
      eapply Forall_impl; [| exact Hall]. cbn. intros; lia.
    + constructor; assumption.
    + apply Z.ltb_ge in Elt. apply Z.eqb_neq in Eeq.
      constructor; [now apply IH |].
      apply bump_keys; [lia | assumption].
Qed.

Lemma count_of_absent (k : Period) (acc : list (Period * nat)) :
  Forall (fun j => k < j) (map fst acc) -> count_of k acc = 0%nat.
Proof.
  induction acc as [| [k' n] rest IH]; intros H; [reflexivity |].
  inversion H as [| ? ? Hk Hrest]; subst. cbn in Hk |- *.
  destruct (k =? k') eqn:E; [apply Z.eqb_eq in E; lia | now apply IH].
Qed.

Lemma bump_count (j k : Period) (acc : list (Period * nat)) :
  StronglySorted Z.lt (map fst acc) ->
  count_of j (GroupBy.bump k acc)
  = (count_of j acc + (if (k =? j)%Z then 1 else 0))%nat.
Proof.
  induction acc as [| [k' n] rest IH]; intros Hs; cbn.
  - rewrite (Z.eqb_sym j k). destruct (k =? j); reflexivity.
  - cbn in Hs. inversion Hs as [| ? ? Hrest Hall]; subst.
    destruct (k <? k') eqn:Elt; [| destruct (k =? k') eqn:Eeq]; cbn.
    + apply Z.ltb_lt in Elt.
      rewrite (Z.eqb_sym j k). destruct (k =? j) eqn:Ekj.
      * apply Z.eqb_eq in Ekj. subst j.
        destruct (k =? k') eqn:E; [apply Z.eqb_eq in E; lia |].
        rewrite count_of_absent; [reflexivity |].
        eapply Forall_impl; [| exact Hall]. cbn. intros; lia.
      * now rewrite Nat.add_0_r.
    + apply Z.eqb_eq in Eeq. subst k'.
      rewrite (Z.eqb_sym j k). destruct (k =? j); lia.
    + apply Z.eqb_neq in Eeq.
      destruct (j =? k') eqn:Ej.
      * apply Z.eqb_eq in Ej. subst k'.
        destruct (k =? j) eqn:E; [apply Z.eqb_eq in E; lia | lia].
      * now apply IH.
Qed.

Lemma bump_sum (k : Period) (acc : list (Period * nat)) :
  sum_counts (GroupBy.bump k acc) = S (sum_counts acc).
Proof.
  induction acc as [| [k' n] rest IH]; [reflexivity |].
  cbn. destruct (k <? k'); [| destruct (k =? k')]; cbn.
  - reflexivity.
  - reflexivity.
  - fold (sum_counts (GroupBy.bump k rest)). rewrite IH.
    fold (sum_counts rest). lia.
Qed.

Lemma bump_positive (k : Period) (acc : list (Period * nat)) :
  Forall (fun e => (1 <= snd e)%nat) acc ->
  Forall (fun e => (1 <= snd e)%nat) (GroupBy.bump k acc).
Proof.
  induction acc as [| [k' n] rest IH]; intros H; cbn.
  - repeat constructor.
  - inversion H as [| ? ? Hn Hrest]; subst. cbn in Hn.
    destruct (k <? k'); [| destruct (k =? k')].
    + constructor; [cbn; lia | assumption].
    + constructor; [cbn; lia | assumption].
    + constructor; [assumption | now apply IH].
Qed.

Lemma fold_step_invariants (keys : list (option Period)) :
  forall acc : list (Period * nat),
    table_ok acc ->
    table_ok (fold_left GroupBy.step keys acc)
    /\ (forall j, count_of j (fold_left GroupBy.step keys acc)
                  = (count_of j acc + occurrences j keys)%nat)
    /\ sum_counts (fold_left GroupBy.step keys acc)
       = (sum_counts acc + List.length (Stats.dropna keys))%nat.
Proof.
  induction keys as [| [p |] keys IH]; intros acc [Hs Hp];
    cbn [fold_left GroupBy.step occurrences Stats.dropna List.length].
  - split; [split; assumption | split; [intros; lia | lia]].
  - destruct (IH (GroupBy.bump p acc)) as (Hok & Hc & Hsum).
    { split; [now apply bump_sorted | now apply bump_positive]. }
    split; [exact Hok | split].
    + intros j. rewrite Hc, bump_count by assumption.
      rewrite (Z.eqb_sym p j). destruct (j =? p); lia.
    + rewrite Hsum, bump_sum. lia.
  - apply IH. split; assumption.
Qed.

Lemma table_entry (p : Period) (n : nat) (acc : list (Period * nat)) :
  table_ok acc ->
  In (p, n) acc <-> count_of p acc = n /\ (1 <= n)%nat.
Proof.
  intros [Hs Hp]. induction acc as [| [k' m] rest IH]; cbn.
  - split; [contradiction | intros [H1 H2]; lia].
  - cbn in Hs. inversion Hs as [| ? ? Hrest Hall]; subst.
    inversion Hp as [| ? ? Hm Hprest]; subst. cbn in Hm.
    specialize (IH Hrest Hprest). split.
    + intros [Heq | Hin].
      * inversion Heq; subst. rewrite Z.eqb_refl. split; [reflexivity | lia].
      * destruct (p =? k') eqn:E.
        -- apply Z.eqb_eq in E. subst k'.
           rewrite Forall_forall in Hall.
           specialize (Hall p (in_map fst _ _ Hin)). lia.
        -- now apply IH.
    + intros [Hc Hn]. destruct (p =? k') eqn:E.
      * apply Z.eqb_eq in E. subst. now left.
      * right. apply IH. split; assumption.
Qed.

End BumpInvariants.

Lemma occurrences_bucket (p : Period) (view : DataFrame) :
  occurrences p (map (fun r => to_period_M (Col.arrival_date r)) view)
  = bucket p view.
Proof.
  unfold bucket. induction view as [| r view IH]; [reflexivity |].
  cbn [map occurrences filter]. unfold in_month at 1.
  destruct (to_period_M (Col.arrival_date r)) as [q |].
  - destruct (q =? p); cbn [List.length]; now rewrite IH.
  - exact IH.
Qed.

Lemma bucket_positive (p : Period) (view : DataFrame) :
  (1 <= bucket p view)%nat <->
  exists r, In r view /\ to_period_M (Col.arrival_date r) = Some p.
Proof.
  unfold bucket. split.
  - intros H. destruct (filter (in_month p) view) as [| r l] eqn:E.
    + cbn in H. lia.
    + assert (Hin : In r (filter (in_month p) view))
        by (rewrite E; now left).
      apply filter_In in Hin. destruct Hin as [Hin Hm].
      exists r. split; [assumption |].
      unfold in_month in Hm.
      destruct (to_period_M (Col.arrival_date r)); [| discriminate].
      apply Z.eqb_eq in Hm. now subst.
  - intros [r [Hin Hp]].
    assert (Hf : In r (filter (in_month p) view)).
    { apply filter_In. split; [assumption |].
      unfold in_month. rewrite Hp. apply Z.eqb_refl. }
    destruct (filter (in_month p) view); [contradiction | cbn; lia].
Qed.

Lemma table_ok_nil : table_ok [].
Proof. split; constructor. Qed.

(** C5. The monthly series lists months in strictly ascending order, so
    each month at most once; a pair (month, count) is in it exactly when
    the count is the number of rows of the view arriving in that month
    and is not 0; and its months are exactly those in which some row of
    the view arrives. *)
Theorem monthly_series (view : DataFrame) :
  StronglySorted Z.lt (map fst (monthly view))
  /\ (forall (p : Period) (n : nat),
        In (p, n) (monthly view) <-> n = bucket p view /\ (1 <= n)%nat)
  /\ (forall p : Period,
        In p (map fst (monthly view)) <->
        exists r, In r view /\ to_period_M (Col.arrival_date r) = Some p).
Proof.
  unfold monthly, GroupBy.size.
  destruct (fold_step_invariants
              (map (fun r => to_period_M (Col.arrival_date r)) view)
              table_ok_nil) as (Hok & Hc & _).
  assert (Hentry : forall p n,
             In (p, n)
                (fold_left GroupBy.step
                   (map (fun r => to_period_M (Col.arrival_date r)) view) [])
             <-> n = bucket p view /\ (1 <= n)%nat).
  { intros p n. rewrite (table_entry p n Hok), Hc, occurrences_bucket.
    cbn. split; intros [H1 H2]; split; congruence || assumption. }
  split; [apply Hok | split; [exact Hentry |]].
  intros p. rewrite <- bucket_positive, in_map_iff. split.
  - intros [[q n] [Hq Hin]]. cbn in Hq. subst q.
    apply Hentry in Hin. destruct Hin as [-> Hn]. exact Hn.
  - intros Hn. exists (p, bucket p view). split; [reflexivity |].
    apply Hentry. split; [reflexivity | assumption].
Qed.

Lemma dropna_periods_length (view : DataFrame) :
  Forall (fun r => Col.arrival_date r <> NaT) view ->
  List.length
    (Stats.dropna (map (fun r => to_period_M (Col.arrival_date r)) view))
  = List.length view.
Proof.
  induction 1 as [| r view Hr _ IH]; [reflexivity |].
  cbn [map]. destruct (Col.arrival_date r) as [| n]; [congruence |].
  unfold to_period_M at 1.
  destruct (civil_year_month (n / ns_per_day)) as [y m].
  cbn. now rewrite IH.
Qed.

Lemma filtered_df_dated (df : DataFrame) (sp : FilterSpec) :
  Forall (fun r => Col.arrival_date r <> NaT) (filtered_df df sp).
Proof.
  apply Forall_forall. intros r Hin.
  rewrite filtered_df_filter in Hin. apply filter_In in Hin.
  destruct Hin as [_ Hk]. apply keeps_iff in Hk.
  destruct Hk as (Hw & _). unfold within in Hw.
  destruct (Col.arrival_date r); [contradiction | discriminate].
Qed.

(** C6. The total-bookings KPI of a filtered view is the sum of the
    counts of the monthly series of that view. *)
Theorem total_bookings_is_monthly_sum (df : DataFrame) (sp : FilterSpec) :
  total_bookings (kpis (filtered_df df sp))
  = sum_counts (monthly (filtered_df df sp)).
Proof.
  unfold monthly, GroupBy.size.
  destruct (fold_step_invariants
              (map (fun r => to_period_M (Col.arrival_date r))
                   (filtered_df df sp))
              table_ok_nil) as (_ & _ & Hsum).
  rewrite Hsum, dropna_periods_length by apply filtered_df_dated.
  reflexivity.
Qed.

(** ** Ranking of countries *)

Lemma StronglySorted_weaken (A : Type) (R R' : A -> A -> Prop) (l : list A) :
  (forall a b, In a l -> In b l -> R a b -> R' a b) ->
  StronglySorted R l -> StronglySorted R' l.
Proof.
  intros Himp Hs. induction Hs as [| a l Hs IH Hall].
  - constructor.
  - constructor.
    + apply IH. intros x y Hx Hy. apply Himp; now right.
    + rewrite Forall_forall in Hall |- *. intros y Hy.
      apply Himp; [now left | now right | now apply Hall].
Qed.

Lemma StronglySorted_map (A B : Type) (f : A -> B) (R : B -> B -> Prop)
      (l : list A) :
  StronglySorted (fun a b => R (f a) (f b)) l -> StronglySorted R (map f l).
Proof.
  induction 1 as [| a l Hs IH Hall]; cbn; constructor.
  - exact IH.
  - rewrite Forall_map. exact Hall.
Qed.

Lemma first_pos_head (x : cell) (rest : list cell) :
  Counts.first_pos x (x :: rest) = 0%nat.
Proof. cbn. now rewrite cell_eqb_refl. Qed.

Lemma first_pos_tail (k x : cell) (rest : list cell) :
  k <> x -> Counts.first_pos k (x :: rest) = S (Counts.first_pos k rest).
Proof.
  intros Hne. cbn. destruct (cell_eqb k x) eqn:E; [| reflexivity].
  apply cell_eqb_eq in E. contradiction.
Qed.

Lemma unique_acc_spec (c : list cell) :
  forall seen : list cell,
    (forall k, In k (Series.unique_acc seen c) <-> In k c /\ ~ In k seen)
    /\ NoDup (Series.unique_acc seen c)
    /\ StronglySorted (met_before c) (Series.unique_acc seen c).
Proof.
  induction c as [| x rest IH]; intros seen; cbn [Series.unique_acc].
  - split; [| split; constructor]. intros k. cbn. tauto.
  - destruct (existsb (cell_eqb x) seen) eqn:E.
    + apply existsb_cell_In in E.
      destruct (IH seen) as (Hin & Hnd & Hs).
      split; [| split; [exact Hnd |]].
      * intros k. rewrite Hin. cbn. split.
        -- intros [H1 H2]. split; [now right | assumption].
        -- intros [[H1 | H1] H2]; [subst; contradiction | now split].
      * eapply StronglySorted_weaken; [| exact Hs].
        intros a b Ha Hb. unfold met_before.
        apply Hin in Ha. apply Hin in Hb.
        rewrite !first_pos_tail; [lia | |]; intros ->; tauto.
    + assert (Hx : ~ In x seen).
      { intros H. apply existsb_cell_In in H. congruence. }
      destruct (IH (x :: seen)) as (Hin & Hnd & Hs).
      split; [| split].
      * intros k. cbn [In]. rewrite Hin. cbn [In]. split.
        -- intros [H | [H1 H2]]; [subst; tauto | tauto].
        -- intros [[H | H] H2]; [now left |].
           destruct (cell_eq_dec x k) as [-> | Hne]; [now left | right].
           split; [assumption | tauto].
      * constructor; [| exact Hnd]. rewrite Hin. cbn. tauto.
      * constructor.
        -- eapply StronglySorted_weaken; [| exact Hs].
           intros a b Ha Hb. unfold met_before.
           apply Hin in Ha. apply Hin in Hb. cbn [In] in Ha, Hb.
           rewrite !first_pos_tail; [lia | |]; intros ->; tauto.
        -- apply Forall_forall. intros k Hk. unfold met_before.
           apply Hin in Hk. cbn [In] in Hk.
           rewrite first_pos_head, first_pos_tail; [lia |].
           intros ->. tauto.
Qed.

Lemma insert_desc_perm (e : cell * nat) (l : list (cell * nat)) :
  Permutation (Counts.insert_desc e l) (e :: l).
Proof.
  induction l as [| y rest IH]; cbn [Counts.insert_desc]; [reflexivity |].
  destruct (snd e <? snd y)%nat; [| reflexivity].
  rewrite IH. apply perm_swap.
Qed.

Lemma sort_desc_perm (l : list (cell * nat)) :
  Permutation (Counts.sort_desc l) l.
Proof.
  induction l as [| x l IH]; cbn; [reflexivity |].
  fold (Counts.sort_desc l). rewrite insert_desc_perm. now constructor.
Qed.

Lemma insert_desc_ranked (c : list cell) (e : cell * nat)
      (l : list (cell * nat)) :
  StronglySorted (ranks_before c) l ->
  Forall (fun y => met_before c (fst e) (fst y)) l ->
  StronglySorted (ranks_before c) (Counts.insert_desc e l).
Proof.
  induction l as [| y rest IH]; intros Hs Hm; cbn [Counts.insert_desc].
  - repeat constructor.
  - inversion Hs as [| ? ? Hrest Hall]; subst.
    inversion Hm as [| ? ? Hy Hmrest]; subst.
    destruct (snd e <? snd y)%nat eqn:E.
    + apply Nat.ltb_lt in E. constructor; [now apply IH |].
      eapply Permutation_Forall.
      * symmetry. apply insert_desc_perm.
      * constructor; [now left | exact Hall].
    + apply Nat.ltb_ge in E. constructor; [exact Hs |].
      assert (Hey : ranks_before c e y).
      { unfold ranks_before, met_before in *.
        destruct (Nat.eq_dec (snd e) (snd y)); [right; now split | left; lia]. }
      constructor; [exact Hey |].
      rewrite Forall_forall in Hall, Hmrest |- *. intros z Hz.
      specialize (Hall z Hz). specialize (Hmrest z Hz).
      unfold ranks_before, met_before in *.
      destruct (Nat.eq_dec (snd e) (snd z)); [right; now split | left; lia].
Qed.

Lemma sort_desc_ranked (c : list cell) (l : list (cell * nat)) :
  StronglySorted (fun a b => met_before c (fst a) (fst b)) l ->
  StronglySorted (ranks_before c) (Counts.sort_desc l).
Proof.
  induction 1 as [| x l Hs IH Hall]; cbn; [constructor |].
  fold (Counts.sort_desc l). apply insert_desc_ranked; [exact IH |].
  eapply Permutation_Forall; [| exact Hall].
  symmetry. apply sort_desc_perm.
Qed.

Lemma sort_desc_fixed (c : list cell) (l : list (cell * nat)) :
  StronglySorted (ranks_before c) l -> Counts.sort_desc l = l.
Proof.
  induction 1 as [| x l Hs IH Hall]; [reflexivity |].
  cbn. fold (Counts.sort_desc l). rewrite IH.
  destruct l as [| y rest]; [reflexivity |]. cbn [Counts.insert_desc].
  inversion Hall as [| ? ? Hxy _]; subst.
  destruct (snd x <? snd y)%nat eqn:E; [| reflexivity].
  apply Nat.ltb_lt in E. unfold ranks_before in Hxy. lia.
Qed.

Lemma canceled_countries_rows (view : DataFrame) :
  canceled_countries view = map Col.country (filter is_canceled_row view).
Proof.
  unfold canceled_countries, Series.eq. f_equal.
  induction view as [| r view IH]; [reflexivity |].
  cbn [map boolean_index filter]. unfold is_canceled_row at 1.
  now rewrite IH.
Qed.






(** With the stable sort in both places the general form is the
    [top_countries] used above. *)
Lemma top_countries_stable_case (view : DataFrame) :
  top_countries_by Counts.sort_desc Counts.sort_desc view
  = top_countries view.
Proof. reflexivity. Qed.





(** ** Loader *)

Lemma assemble_all_derived (rows : list Raw.Row) :
  forall dates : list Timestamp,
    Forall mismatch_derived
      (assemble_all rows dates
         (Series.ne (map Raw.reserved_room_type rows)
                    (map Raw.assigned_room_type rows))).
Proof.
  unfold Series.ne.
  induction rows as [| r rows IH]; intros dates; cbn; [constructor |].
  destruct dates as [| d dates]; constructor.
  - reflexivity.
  - apply IH.
Qed.

Lemma assemble_all_blank (v : option bool) (rows : list Raw.Row) :
  forall (dates : list Timestamp) (mms : list bool),
    assemble_all (map (Raw.with_room_mismatch v) rows) dates mms
    = assemble_all rows dates mms.
Proof.
  induction rows as [| r rows IH]; intros dates mms; [reflexivity |].
  cbn [map assemble_all].
  destruct dates as [| d dates]; [reflexivity |].
  destruct mms as [| mm mms]; [reflexivity |].
  rewrite IH. reflexivity.
Qed.

Lemma load_blank (to_datetime : string -> option Z) (v : option bool)
      (rows : list Raw.Row) :
  load to_datetime (map (Raw.with_room_mismatch v) rows)
  = load to_datetime rows.
Proof.
  unfold load. rewrite !map_map. cbn [Raw.with_room_mismatch
    Raw.arrival_date Raw.reserved_room_type Raw.assigned_room_type].
  destruct (coerce_dates to_datetime (map Raw.arrival_date rows));
    [| reflexivity].
  now rewrite assemble_all_blank.
Qed.

Lemma filtered_df_Forall (P : Booking -> Prop) (df : DataFrame)
      (sp : FilterSpec) :
  Forall P df -> Forall P (filtered_df df sp).
Proof.
  intros H. rewrite filtered_df_filter.
  rewrite Forall_forall in H |- *. intros r Hr.
  apply filter_In in Hr. now apply H.
Qed.

(** C8. In a loaded dataset every row's [room_mismatch] is the result of
    comparing its reserved and assigned room types for inequality; two
    files that differ only in a [room_mismatch] column of their own load
    to the same dataset; and the rows of every filtered view still carry
    the derived value. *)
Theorem room_mismatch_derived (to_datetime : string -> option Z)
        (rows : list Raw.Row) (df : DataFrame) :
  load to_datetime rows = Some df ->
  Forall mismatch_derived df
  /\ (forall rows' : list Raw.Row,
        map (Raw.with_room_mismatch None) rows'
        = map (Raw.with_room_mismatch None) rows ->
        load to_datetime rows' = Some df)
  /\ (forall sp : FilterSpec, Forall mismatch_derived (filtered_df df sp)).
Proof.
  intros Hload.
  assert (Hd : Forall mismatch_derived df).
  { unfold load in Hload.
    destruct (coerce_dates to_datetime (map Raw.arrival_date rows));
      [| discriminate].
    injection Hload as <-. apply assemble_all_derived. }
  split; [exact Hd | split].
  - intros rows' Heq.
    rewrite <- (load_blank to_datetime None rows'), Heq, load_blank.
    exact Hload.
  - intros sp. now apply filtered_df_Forall.
Qed.

Lemma room_mismatch_derived_witness :
  exists df : DataFrame,
    load to_datetime_sample raw_sample = Some df
    /\ map Col.room_mismatch df = [true; false]
    /\ Forall mismatch_derived df.
Proof.
  eexists. split; [vm_compute; reflexivity |].
  split; [reflexivity |].
  apply (room_mismatch_derived to_datetime_sample raw_sample).
  vm_compute. reflexivity.
Defined.

(** ** Default filter *)

Lemma ns_per_day_pos : 0 < ns_per_day.
Proof. reflexivity. Qed.

Lemma normalize_le (n : Z) : normalize n <= n.
Proof.
  unfold normalize. rewrite Z.mul_comm.
  apply Z.mul_div_le. exact ns_per_day_pos.
Qed.

Lemma series_min_le (col : list Timestamp) (n : Z) :
  In (Ts n) col -> exists m, Series.min col = Ts m /\ m <= n.
Proof.
  unfold Series.min. induction col as [| d col IH]; [contradiction |].
  intros [-> | Hin]; cbn [fold_right].
  - destruct (fold_right Series.ts_min2 NaT col) as [| y]; cbn.
    + exists n. split; [reflexivity | lia].
    + exists (Z.min n y). split; [reflexivity | lia].
  - destruct (IH Hin) as [m [Hm Hle]]. rewrite Hm.
    destruct d as [| x]; cbn.
    + exists m. now split.
    + exists (Z.min x m). split; [reflexivity | lia].
Qed.

Lemma series_max_ge (col : list Timestamp) (n : Z) :
  In (Ts n) col -> exists m, Series.max col = Ts m /\ n <= m.
Proof.
  unfold Series.max. induction col as [| d col IH]; [contradiction |].
  intros [-> | Hin]; cbn [fold_right].
  - destruct (fold_right Series.ts_max2 NaT col) as [| y]; cbn.
    + exists n. split; [reflexivity | lia].
    + exists (Z.max n y). split; [reflexivity | lia].
  - destruct (IH Hin) as [m [Hm Hle]]. rewrite Hm.
    destruct d as [| x]; cbn.
    + exists m. now split.
    + exists (Z.max x m). split; [reflexivity | lia].
Qed.

Lemma unique_complete (c : list cell) (k : cell) :
  In k c -> In k (Series.unique c).
Proof.
  intros H. apply (proj1 (unique_acc_spec c [])). cbn. tauto.
Qed.

(** A filter whose interval covers every date of the column and whose
    selections cover every value of their columns keeps every row, as
    long as no date is missing. *)
Lemma covering_filter_keeps_all (df : DataFrame) (sp : FilterSpec) (lo hi : Z) :
  Forall (fun r => Col.arrival_date r <> NaT) df ->
  Series.min (map Col.arrival_date df) = Ts lo ->
  Series.max (map Col.arrival_date df) = Ts hi ->
  start_date sp <= lo ->
  hi <= end_date sp ->
  incl (map Col.hotel df) (hotel_type sp) ->
  incl (map Col.is_canceled df) (status sp) ->
  incl (map Col.customer_type df) (customer_type sp) ->
  filtered_df df sp = df.
Proof.
  intros Hdated Hlo Hhi Hstart Hend Hh Hs Hc.
  rewrite filtered_df_filter. apply filter_all.
  intros r Hr. apply keeps_iff.
  rewrite Forall_forall in Hdated. specialize (Hdated r Hr).
  destruct (Col.arrival_date r) as [| n] eqn:En; [congruence |].
  assert (Hin : In (Ts n) (map Col.arrival_date df)).
  { rewrite <- En. now apply in_map. }
  destruct (series_min_le _ _ Hin) as [lo' [Hlo' Hle]].
  destruct (series_max_ge _ _ Hin) as [hi' [Hhi' Hge]].
  rewrite Hlo in Hlo'. rewrite Hhi in Hhi'.
  injection Hlo' as <-. injection Hhi' as <-.
  cbn [within]. repeat split; try lia.
  - apply Hh. now apply in_map.
  - apply Hs. now apply in_map.
  - apply Hc. now apply in_map.
Qed.

(** C10, as the code has it.  Take a dataset in which no arrival date is
    missing and the latest arrival date has no time of day.  If it has a
    row, the widgets have default values; and filtering with the default
    values gives back the whole dataset, rows in the same order. *)
Theorem default_filter_keeps_all (df : DataFrame) :
  Forall (fun r => Col.arrival_date r <> NaT) df ->
  (forall t, Series.max (map Col.arrival_date df) = Ts t -> normalize t = t) ->
  (df <> [] -> exists sp, default_spec df = Some sp)
  /\ (forall sp, default_spec df = Some sp -> filtered_df df sp = df).
Proof.
  intros Hdated Hmidnight. split.
  - intros Hne. destruct df as [| r df]; [congruence |].
    inversion Hdated as [| ? ? Hr _]; subst.
    destruct (Col.arrival_date r) as [| n] eqn:En; [congruence |].
    assert (Hin : In (Ts n) (map Col.arrival_date (r :: df))).
    { cbn. left. exact En. }
    destruct (series_min_le _ _ Hin) as [lo [Hlo _]].
    destruct (series_max_ge _ _ Hin) as [hi [Hhi _]].
    unfold default_spec. rewrite Hlo, Hhi. eexists. reflexivity.
  - intros sp Hsp. unfold default_spec in Hsp.
    destruct (Series.min (map Col.arrival_date df)) as [| lo] eqn:Hlo;
      [discriminate |].
    destruct (Series.max (map Col.arrival_date df)) as [| hi] eqn:Hhi;
      [discriminate |].
    injection Hsp as <-.
    apply (covering_filter_keeps_all _ Hdated Hlo Hhi); cbn.
    + apply normalize_le.
    + rewrite (Hmidnight hi Logic.eq_refl). lia.
    + intros k. apply unique_complete.
    + intros k. apply unique_complete.
    + intros k. apply unique_complete.
Qed.

Lemma default_filter_keeps_all_witness :
  (exists sp, default_spec df_sample = Some sp)
  /\ (forall sp, default_spec df_sample = Some sp ->
                 filtered_df df_sample sp = df_sample).
Proof.
  assert (Hd : Forall (fun r => Col.arrival_date r <> NaT) df_sample).
  { repeat constructor; discriminate. }
  assert (Hm : forall t, Series.max (map Col.arrival_date df_sample) = Ts t ->
                         normalize t = t).
  { intros t Ht. vm_compute in Ht. injection Ht as <-. reflexivity. }
  destruct (default_filter_keeps_all Hd Hm) as [Hex Hall].
  split; [apply Hex; discriminate | exact Hall].
Defined.

(** C10 fails as stated.  A row whose arrival date is missing is dropped
    by the default filter, and so is a row arriving at noon of the
    latest day. *)
Lemma default_filter_drops_rows :
  (option_map (filtered_df df_missing_date) (default_spec df_missing_date)
   = Some [row "City Hotel" (Ts (day 17300)) "Canceled" "Transient" "PRT"]
   /\ option_map (filtered_df df_missing_date) (default_spec df_missing_date)
      <> Some df_missing_date)
  /\ (option_map (filtered_df df_noon) (default_spec df_noon) = Some []
      /\ option_map (filtered_df df_noon) (default_spec df_noon)
         <> Some df_noon).
Proof.
  repeat split; try (vm_compute; reflexivity); vm_compute; discriminate.
Qed.

(** * Further properties *)

(** ** The filter as an operation on frames *)

Lemma filter_Subseq (A : Type) (p : A -> bool) (l : list A) :
  Subseq (filter p l) l.
Proof.
  induction l as [| x l IH]; cbn; [constructor |].
  destruct (p x); now constructor.
Qed.

(** X1. The filter leaves the rows it keeps in the order of the dataset:
    the view is the dataset with rows struck out, nothing moved, nothing
    repeated. *)
Theorem filtered_df_keeps_order (df : DataFrame) (sp : FilterSpec) :
  Subseq (filtered_df df sp) df.
Proof. rewrite filtered_df_filter. apply filter_Subseq. Qed.

Lemma filter_twice (A : Type) (p q : A -> bool) (l : list A) :
  filter p (filter q l) = filter (fun x => q x && p x) l.
Proof.
  induction l as [| x l IH]; [reflexivity |].
  cbn. destruct (q x); cbn; [destruct (p x) |]; now rewrite IH.
Qed.

(** X2. Filtering a view again commutes: the two specifications can be
    applied in either order; and applying the same specification twice
    changes nothing. *)
Theorem filtered_df_twice (df : DataFrame) (a b : FilterSpec) :
  filtered_df (filtered_df df a) b = filtered_df (filtered_df df b) a
  /\ filtered_df (filtered_df df a) a = filtered_df df a.
Proof.
  rewrite !filtered_df_filter, !filter_twice. split.
  - apply filter_ext. intros r. apply andb_comm.
  - apply filter_ext. intros r. now destruct (keeps a r).
Qed.

Lemma narrower_keeps (a b : FilterSpec) (r : Booking) :
  narrower a b -> keeps a r = true -> keeps b r = true.
Proof.
  intros (Hs & He & Hh & Hst & Hc) H.
  apply keeps_iff in H. apply keeps_iff.
  destruct H as (Hw & H1 & H2 & H3).
  split; [| repeat split; auto].
  unfold within in *. destruct (Col.arrival_date r); [assumption | lia].
Qed.

(** X3. Narrowing a filter can start from the wider view: if one
    specification selects no more than another, filtering the other's
    view with it gives the same rows as filtering the whole dataset. *)
Theorem filtered_df_narrowing (df : DataFrame) (a b : FilterSpec) :
  narrower a b ->
  filtered_df (filtered_df df b) a = filtered_df df a.
Proof.
  intros Hn. rewrite !filtered_df_filter, filter_twice.
  apply filter_ext. intros r.
  destruct (keeps a r) eqn:Ea.
  - now rewrite (narrower_keeps r Hn Ea).
  - apply andb_false_r.
Qed.

Lemma filtered_df_narrowing_witness :
  narrower spec_city_may spec_sample
  /\ filtered_df (filtered_df df_sample spec_sample) spec_city_may
     = filtered_df df_sample spec_city_may.
Proof.
  assert (Hn : narrower spec_city_may spec_sample).
  { unfold narrower. cbn [start_date end_date hotel_type status customer_type
                          spec_city_may spec_sample].
    split; [vm_compute; discriminate |].
    split; [vm_compute; discriminate |].
    split; [| split]; intros k Hk; cbn in Hk |- *; tauto. }
  split; [exact Hn | exact (filtered_df_narrowing df_sample Hn)].
Defined.

(** X4. The filter decides row by row: the view of two datasets laid end
    to end is the two views laid end to end. *)
Theorem filtered_df_app (df1 df2 : DataFrame) (sp : FilterSpec) :
  filtered_df (df1 ++ df2) sp = filtered_df df1 sp ++ filtered_df df2 sp.
Proof. rewrite !filtered_df_filter. apply filter_app. Qed.

(** ** Defaults of the sidebar *)

Lemma series_min_NaT (col : list Timestamp) :
  Series.min col = NaT <-> Forall (fun d => d = NaT) col.
Proof.
  unfold Series.min. induction col as [| d col IH]; cbn [fold_right].
  - split; [constructor | reflexivity].
  - destruct d as [| x]; cbn [Series.ts_min2].
    + rewrite IH. split; [now constructor | now inversion 1].
    + split.
      * destruct (fold_right Series.ts_min2 NaT col); discriminate.
      * inversion 1; discriminate.
Qed.

Lemma series_max_NaT (col : list Timestamp) :
  Series.max col = NaT <-> Forall (fun d => d = NaT) col.
Proof.
  unfold Series.max. induction col as [| d col IH]; cbn [fold_right].
  - split; [constructor | reflexivity].
  - destruct d as [| x]; cbn [Series.ts_max2].
    + rewrite IH. split; [now constructor | now inversion 1].
    + split.
      * destruct (fold_right Series.ts_max2 NaT col); discriminate.
      * inversion 1; discriminate.
Qed.

Lemma series_min_attained (col : list Timestamp) (m : Z) :
  Series.min col = Ts m -> In (Ts m) col.
Proof.
  unfold Series.min. revert m.
  induction col as [| d col IH]; intros m; cbn [fold_right]; [discriminate |].
  destruct d as [| x]; cbn [Series.ts_min2].
  - intros H. right. now apply IH.
  - destruct (fold_right Series.ts_min2 NaT col) as [| y].
    + intros H. left. exact H.
    + intros H. injection H as <-.
      destruct (Z.min_spec x y) as [[_ ->] | [_ ->]];
        [now left | right; now apply IH].
Qed.

Lemma series_max_attained (col : list Timestamp) (m : Z) :
  Series.max col = Ts m -> In (Ts m) col.
Proof.
  unfold Series.max. revert m.
  induction col as [| d col IH]; intros m; cbn [fold_right]; [discriminate |].
  destruct d as [| x]; cbn [Series.ts_max2].
  - intros H. right. now apply IH.
  - destruct (fold_right Series.ts_max2 NaT col) as [| y].
    + intros H. left. exact H.
    + intros H. injection H as <-.
      destruct (Z.max_spec x y) as [[_ ->] | [_ ->]];
        [right; now apply IH | now left].
Qed.

(** X5. [min()] and [max()] of the date column, line 23: each is [NaT]
    exactly when the column holds no date; otherwise both are dates of
    the column and every date of the column lies between them. *)
Theorem min_max_dates (col : list Timestamp) :
  (Series.min col = NaT <-> Forall (fun d => d = NaT) col)
  /\ (Series.max col = NaT <-> Forall (fun d => d = NaT) col)
  /\ forall lo hi : Z,
       Series.min col = Ts lo ->
       Series.max col = Ts hi ->
       In (Ts lo) col /\ In (Ts hi) col
       /\ forall n, In (Ts n) col -> lo <= n <= hi.
Proof.
  split; [apply series_min_NaT | split; [apply series_max_NaT |]].
  intros lo hi Hlo Hhi.
  split; [now apply series_min_attained |].
  split; [now apply series_max_attained |].
  intros n Hn.
  destruct (series_min_le _ _ Hn) as [lo' [Hlo' Hle]].
  destruct (series_max_ge _ _ Hn) as [hi' [Hhi' Hge]].
  rewrite Hlo in Hlo'. rewrite Hhi in Hhi'.
  injection Hlo' as <-. injection Hhi' as <-. lia.
Qed.

Lemma normalize_mono (a b : Z) : a <= b -> normalize a <= normalize b.
Proof.
  intros H. unfold normalize.
  apply Z.mul_le_mono_nonneg_r; [vm_compute; discriminate |].
  apply Z.div_le_mono; [exact ns_per_day_pos | exact H].
Qed.

Lemma normalize_idem (a : Z) : normalize (normalize a) = normalize a.
Proof.
  unfold normalize. rewrite Z.div_mul; [reflexivity |].
  vm_compute. discriminate.
Qed.

(** X6. The default filter exists exactly when some row has an arrival
    date.  Its two bounds are midnights, the first not after the second,
    so the default never is an inverted range. *)
Theorem default_spec_interval (df : DataFrame) :
  (default_spec df = None <->
   Forall (fun r => Col.arrival_date r = NaT) df)
  /\ forall sp : FilterSpec,
       default_spec df = Some sp ->
       start_date sp <= end_date sp
       /\ normalize (start_date sp) = start_date sp
       /\ normalize (end_date sp) = end_date sp.
Proof.
  unfold default_spec. split.
  - rewrite <- (Forall_map Col.arrival_date (fun d => d = NaT)).
    rewrite <- series_min_NaT.
    destruct (Series.min (map Col.arrival_date df)) as [| lo] eqn:Hlo.
    + split; reflexivity.
    + destruct (Series.max (map Col.arrival_date df)) as [| hi] eqn:Hhi.
      * apply series_max_NaT in Hhi. apply series_min_NaT in Hhi. congruence.
      * split; discriminate.
  - intros sp.
    destruct (Series.min (map Col.arrival_date df)) as [| lo] eqn:Hlo;
      [discriminate |].
    destruct (Series.max (map Col.arrival_date df)) as [| hi] eqn:Hhi;
      [discriminate |].
    intros H. injection H as <-. cbn.
    split; [| split; apply normalize_idem].
    apply normalize_mono.
    apply series_min_attained in Hlo.
    destruct (series_max_ge _ _ Hlo) as [hi' [Hhi' Hle]].
    rewrite Hhi in Hhi'. injection Hhi' as <-. exact Hle.
Qed.

(** X7. Which rows the default filter keeps: exactly the rows whose
    arrival date is present and not after the default end date, the
    midnight that starts the latest day.  The start date and the three
    selections never remove a row. *)
Theorem default_filter_view (df : DataFrame) (sp : FilterSpec) :
  default_spec df = Some sp ->
  (exists hi, Series.max (map Col.arrival_date df) = Ts hi
              /\ end_date sp = normalize hi)
  /\ filtered_df df sp
     = filter (fun r => ts_le (Col.arrival_date r) (end_date sp)) df.
Proof.
  unfold default_spec.
  destruct (Series.min (map Col.arrival_date df)) as [| lo] eqn:Hlo;
    [discriminate |].
  destruct (Series.max (map Col.arrival_date df)) as [| hi] eqn:Hhi;
    [discriminate |].
  intros H. injection H as <-. cbn [end_date].
  split; [exists hi; now split |].
  rewrite filtered_df_filter. apply filter_ext_in. intros r Hr.
  unfold keeps. cbn [start_date end_date hotel_type status customer_type].
  assert (Hh : existsb (cell_eqb (Col.hotel r))
                       (Series.unique (map Col.hotel df)) = true).
  { apply existsb_cell_In, unique_complete. now apply in_map. }
  assert (Hs : existsb (cell_eqb (Col.is_canceled r))
                       (Series.unique (map Col.is_canceled df)) = true).
  { apply existsb_cell_In, unique_complete. now apply in_map. }
  assert (Hc : existsb (cell_eqb (Col.customer_type r))
                       (Series.unique (map Col.customer_type df)) = true).
  { apply existsb_cell_In, unique_complete. now apply in_map. }
  rewrite Hh, Hs, Hc, !andb_true_r.
  destruct (Col.arrival_date r) as [| n] eqn:En; [reflexivity |].
  cbn [ts_ge ts_le].
  assert (Hin : In (Ts n) (map Col.arrival_date df)).
  { rewrite <- En. now apply in_map. }
  destruct (series_min_le _ _ Hin) as [lo' [Hlo' Hle]].
  rewrite Hlo in Hlo'. injection Hlo' as <-.
  pose proof (normalize_le lo).
  replace (normalize lo <=? n) with true; [reflexivity |].
  symmetry. apply Z.leb_le. lia.
Qed.

Lemma default_filter_view_witness :
  exists sp : FilterSpec,
    default_spec df_noon = Some sp
    /\ filtered_df df_noon sp
       = filter (fun r => ts_le (Col.arrival_date r) (end_date sp)) df_noon.
Proof.
  eexists. split; [vm_compute; reflexivity |].
  apply (default_filter_view df_noon). vm_compute. reflexivity.
Defined.

(** X8. [unique()], which fills the three multiselects on lines 28-30:
    it lists every value of the column once, a missing value included,
    in the order in which the values first appear. *)
Theorem unique_values (c : list cell) :
  NoDup (Series.unique c)
  /\ (forall k, In k (Series.unique c) <-> In k c)
  /\ StronglySorted (met_before c) (Series.unique c).
Proof.
  destruct (unique_acc_spec c []) as (Hin & Hnd & Hs).
  split; [exact Hnd | split; [| exact Hs]].
  intros k. rewrite (Hin k). cbn. tauto.
Qed.

(** ** What the loader does to a file *)

Lemma coerce_dates_rows (to_datetime : string -> option Z) (c : list cell) :
  forall ds : list Timestamp,
    coerce_dates to_datetime c = Some ds <->
    Forall2 (fun x d => coerce_date to_datetime x = Some d) c ds.
Proof.
  induction c as [| x c IH]; intros ds; cbn [coerce_dates].
  - split.
    + intros H. injection H as <-. constructor.
    + inversion 1. reflexivity.
  - split.
    + destruct (coerce_date to_datetime x) as [d |] eqn:Ex; [| discriminate].
      destruct (coerce_dates to_datetime c) as [ds' |]; [| discriminate].
      intros H. injection H as <-.
      constructor; [exact Ex | now apply IH].
    + inversion 1 as [| ? d ? ds' Hx Hrest]; subst.
      rewrite Hx. apply IH in Hrest. now rewrite Hrest.
Qed.

Lemma assemble_all_rows (to_datetime : string -> option Z)
      (rows : list Raw.Row) :
  forall (dates : list Timestamp) (df : DataFrame),
    Forall2 (fun x d => coerce_date to_datetime x = Some d)
            (map Raw.arrival_date rows) dates ->
    (assemble_all rows dates
       (Series.ne (map Raw.reserved_room_type rows)
                  (map Raw.assigned_room_type rows)) = df
     <-> Forall2 (loaded_from to_datetime) rows df
         /\ map Col.arrival_date df = dates).
Proof.
  unfold Series.ne.
  induction rows as [| raw rows IH]; intros dates df Hd;
    cbn [map combine assemble_all fst snd] in *.
  - inversion Hd; subst. split.
    + intros <-. split; [constructor | reflexivity].
    + intros [H _]. inversion H. reflexivity.
  - inversion Hd as [| ? d ? dates' Hx Hrest]; subst. split.
    + intros <-. cbn [map].
      destruct (proj1 (IH dates' _ Hrest) Logic.eq_refl) as [Hf Hm]. split.
      * constructor; [| exact Hf]. split; [exact Hx | reflexivity].
      * cbn. now rewrite Hm.
    + intros [Hf Hm]. inversion Hf as [| ? r ? df' Hr Hf']; subst.
      cbn [map] in Hm. injection Hm as Hd0 Hm.
      destruct Hr as [_ Hr]. rewrite Hd0 in Hr.
      rewrite Hr. f_equal. apply (proj2 (IH dates' df' Hrest)). now split.
Qed.

(** X10. The loader works row by row and keeps count and order: a file
    loads to a dataset exactly when the dataset has one row for each row
    of the file, in the same order, with the date coerced (an empty cell
    to [NaT]), [room_mismatch] derived and every other column copied.
    Nothing is filtered out, sorted or merged. *)
Theorem load_rows (to_datetime : string -> option Z) (rows : list Raw.Row)
        (df : DataFrame) :
  load to_datetime rows = Some df <->
  Forall2 (loaded_from to_datetime) rows df.
Proof.
  unfold load. split.
  - destruct (coerce_dates to_datetime (map Raw.arrival_date rows))
      as [dates |] eqn:Ed; [| discriminate].
    intros H. injection H as H.
    apply coerce_dates_rows in Ed.
    now apply (proj1 (@assemble_all_rows to_datetime rows dates df Ed)) in H.
  - intros Hf.
    assert (Hd : Forall2 (fun x d => coerce_date to_datetime x = Some d)
                         (map Raw.arrival_date rows)
                         (map Col.arrival_date df)).
    { clear -Hf. induction Hf as [| raw r rows df [Hx _] _ IH]; cbn;
        constructor; assumption. }
    pose proof Hd as Hc. apply coerce_dates_rows in Hc. rewrite Hc.
    f_equal.
    apply (proj2 (@assemble_all_rows to_datetime rows _ df Hd)). now split.
Qed.

Lemma cell_ne_false (a b : cell) :
  cell_ne a b = false <-> exists s, a = Some s /\ b = Some s.
Proof.
  destruct a as [x |], b as [y |]; cbn.
  - rewrite negb_false_iff, String.eqb_eq. split.
    + intros ->. now exists y.
    + intros [s [H1 H2]]. congruence.
  - split; [discriminate | intros [s [_ H]]; discriminate].
  - split; [discriminate | intros [s [H _]]; discriminate].
  - split; [discriminate | intros [s [H _]]; discriminate].
Qed.

(** X11. In a loaded dataset a row counts as matched, [room_mismatch]
    false, exactly when both room types are present and the same text;
    a row with a room type missing always counts as a mismatch. *)
Theorem room_mismatch_false (to_datetime : string -> option Z)
        (rows : list Raw.Row) (df : DataFrame) (r : Booking) :
  load to_datetime rows = Some df ->
  In r df ->
  (Col.room_mismatch r = false <->
   exists s, Col.reserved_room_type r = Some s
             /\ Col.assigned_room_type r = Some s).
Proof.
  intros Hload Hin. unfold load in Hload.
  destruct (coerce_dates to_datetime (map Raw.arrival_date rows));
    [| discriminate].
  injection Hload as <-.
  pose proof (assemble_all_derived rows l) as Hd.
  rewrite Forall_forall in Hd. rewrite (Hd r Hin).
  apply cell_ne_false.
Qed.

Lemma room_mismatch_false_witness :
  exists (df : DataFrame) (r : Booking),
    load to_datetime_sample raw_sample = Some df
    /\ In r df
    /\ (Col.room_mismatch r = false <->
        exists s, Col.reserved_room_type r = Some s
                  /\ Col.assigned_room_type r = Some s).
Proof.
  eexists. eexists.
  split; [vm_compute; reflexivity |].
  split; [right; left; reflexivity |].
  eapply (@room_mismatch_false to_datetime_sample raw_sample).
  - vm_compute. reflexivity.
  - right. left. reflexivity.
Defined.

(** ** KPIs on views with and without data *)

Lemma dropna_nil (A : Type) (c : list (option A)) :
  Stats.dropna c = [] <-> Forall (fun v => v = None) c.
Proof.
  induction c as [| [v |] c IH]; cbn.
  - split; [constructor | reflexivity].
  - split; [discriminate | inversion 1; discriminate].
  - rewrite IH. split; [now constructor | now inversion 1].
Qed.

Lemma mean_nan (c : list (option Q)) :
  Stats.mean c = None <-> Forall (fun v => v = None) c.
Proof.
  rewrite <- dropna_nil. unfold Stats.mean.
  destruct (Stats.dropna c); split; congruence.
Qed.

Lemma mean_bool_nan (bs : list bool) : Stats.mean_bool bs = None <-> bs = [].
Proof.
  unfold Stats.mean_bool. rewrite mean_nan.
  destruct bs as [| b bs]; cbn.
  - split; [reflexivity | constructor].
  - split; [inversion 1; discriminate | discriminate].
Qed.

Lemma round_nan (x : option Q) (n : nat) : Stats.round x n = None <-> x = None.
Proof. destruct x; cbn; split; congruence. Qed.

Lemma times100_nan (x : option Q) : Stats.times100 x = None <-> x = None.
Proof. destruct x; cbn; split; congruence. Qed.

Lemma map_nil_iff (A B : Type) (f : A -> B) (l : list A) :
  map f l = [] <-> l = [].
Proof. destruct l; cbn; split; congruence. Qed.

(** X12. When a KPI shows NaN.  The two rates do so only on the empty
    view.  Each of the three averages does so exactly when no row of the
    view has a value in its column, which includes the empty view. *)
Theorem kpis_nan (view : DataFrame) :
  (cancellation_rate (kpis view) = None <-> view = [])
  /\ (repeated_guests (kpis view) = None <-> view = [])
  /\ (avg_adr (kpis view) = None <->
      Forall (fun r => Col.adr r = None) view)
  /\ (avg_lead_time (kpis view) = None <->
      Forall (fun r => Col.lead_time r = None) view)
  /\ (guests_per_booking (kpis view) = None <->
      Forall (fun r => Col.total_guests r = None) view).
Proof.
  unfold kpis, cancellation_mean, Series.eq.
  cbn [cancellation_rate repeated_guests avg_adr avg_lead_time
       guests_per_booking].
  rewrite !round_nan, !times100_nan, !mean_bool_nan, !mean_nan,
    !map_nil_iff, !Forall_map.
  repeat split; auto.
Qed.

Lemma filter_length_bound (A : Type) (p : A -> bool) (l : list A) :
  (List.length (filter p l) <= List.length l)%nat.
Proof.
  induction l as [| x l IH]; cbn; [lia |].
  destruct (p x); cbn; lia.
Qed.

Lemma mean_bool_unit (bs : list bool) (m : Q) :
  Stats.mean_bool bs = Some m -> (0 <= m <= 1)%Q.
Proof.
  destruct bs as [| b bs]; [discriminate |].
  intros Hm. pose proof (mean_bool_value b bs) as Hv.
  rewrite Hm in Hv. cbn [kpi_is] in Hv. rewrite Hv.
  pose proof (filter_length_bound (fun x : bool => x) (b :: bs)) as Hle.
  set (c := List.length (filter (fun x : bool => x) (b :: bs))) in *.
  set (n := List.length (b :: bs)) in *.
  assert (Hn : Z.pos (Pos.of_nat n) = Z.of_nat n).
  { unfold n. cbn [List.length].
    now rewrite <- Pos.of_nat_succ, Zpos_P_of_succ_nat, Nat2Z.inj_succ. }
  unfold Qle. cbn [Qnum Qden]. rewrite Hn. split; lia.
Qed.

Lemma round_half_even_bounds (y : Q) (lo hi : Z) :
  (inject_Z lo <= y <= inject_Z hi)%Q ->
  lo <= Stats.round_half_even y <= hi.
Proof.
  intros [Hlo Hhi].
  assert (Hf1 : lo <= Qfloor y).
  { rewrite <- (Qfloor_Z lo). now apply Qfloor_resp_le. }
  assert (Hf2 : Qfloor y <= hi).
  { rewrite <- (Qfloor_Z hi). now apply Qfloor_resp_le. }
  assert (Hup : (1 # 2 <= y - inject_Z (Qfloor y))%Q -> Qfloor y + 1 <= hi).
  { intros Hhalf.
    assert (Hlt : (inject_Z (Qfloor y) < inject_Z hi)%Q) by lra.
    rewrite <- Zlt_Qlt in Hlt. lia. }
  unfold Stats.round_half_even.
  destruct (Qcompare_spec (y - inject_Z (Qfloor y)) (1 # 2)) as [He | Hl | Hg].
  - destruct (Z.even (Qfloor y)); split; try lia.
    apply Hup. rewrite He. apply Qle_refl.
  - split; lia.
  - split; [lia |]. apply Hup. now apply Qlt_le_weak.
Qed.

Lemma percent_bounds (m v : Q) :
  (0 <= m <= 1)%Q ->
  Stats.round (Stats.times100 (Some m)) 2 = Some v ->
  (0 <= v <= 100)%Q.
Proof.
  intros Hm H.
  change (Stats.round (Stats.times100 (Some m)) 2)
    with (Some (inject_Z (Stats.round_half_even (m * 100 * (100 # 1)))
                / (100 # 1))%Q) in H.
  injection H as <-.
  pose proof (@round_half_even_bounds (m * 100 * (100 # 1))%Q 0 10000) as Hb.
  assert (Hy : (inject_Z 0 <= m * 100 * (100 # 1) <= inject_Z 10000)%Q).
  { change (inject_Z 0) with 0%Q. change (inject_Z 10000) with (10000 # 1)%Q.
    lra. }
  specialize (Hb Hy). destruct Hb as [Hb1 Hb2].
  rewrite Zle_Qle in Hb1, Hb2.
  change (inject_Z 0) with 0%Q in Hb1.
  change (inject_Z 10000) with (10000 # 1)%Q in Hb2.
  unfold Qdiv. change (/ (100 # 1))%Q with (1 # 100)%Q. lra.
Qed.

(** X13. Whenever the view has a row, the cancellation rate and the
    repeated-guest rate that are shown lie between 0 and 100 percent. *)
Theorem rates_are_percentages (view : DataFrame) (v : Q) :
  cancellation_rate (kpis view) = Some v
  \/ repeated_guests (kpis view) = Some v ->
  (0 <= v <= 100)%Q.
Proof.
  unfold kpis, cancellation_mean.
  cbn [cancellation_rate repeated_guests].
  intros [H | H].
  - destruct (Stats.mean_bool
                (Series.eq (map Col.is_canceled view) "Canceled"))
      as [m |] eqn:Em; [| discriminate].
    exact (percent_bounds (mean_bool_unit _ Em) H).
  - destruct (Stats.mean_bool
                (Series.eq (map Col.is_repeated_guest view) "Yes"))
      as [m |] eqn:Em; [| discriminate].
    exact (percent_bounds (mean_bool_unit _ Em) H).
Qed.

Lemma rates_are_percentages_witness :
  cancellation_rate (kpis df_sample) = Some (7500 # 100)%Q
  /\ (0 <= 7500 # 100 <= 100)%Q.
Proof.
  assert (H : cancellation_rate (kpis df_sample) = Some (7500 # 100)%Q)
    by (vm_compute; reflexivity).
  split; [exact H |].
  exact (rates_are_percentages df_sample (or_introl H)).
Defined.

Lemma round_half_even_close (y : Q) :
  (y - (1 # 2) <= inject_Z (Stats.round_half_even y) <= y + (1 # 2))%Q.
Proof.
  pose proof (Qfloor_le y) as Hlo. pose proof (Qlt_floor y) as Hhi.
  rewrite inject_Z_plus in Hhi. change (inject_Z 1) with 1%Q in Hhi.
  unfold Stats.round_half_even.
  destruct (Qcompare_spec (y - inject_Z (Qfloor y)) (1 # 2)) as [He | Hl | Hg].
  - destruct (Z.even (Qfloor y)).
    + lra.
    + rewrite inject_Z_plus. change (inject_Z 1) with 1%Q. lra.
  - lra.
  - rewrite inject_Z_plus. change (inject_Z 1) with 1%Q. lra.
Qed.

(** X14. Rounding for display moves a KPI by at most half a unit of its
    last digit: the average daily rate and the guests per booking shown
    are within 0.005 of the mean, the average lead time within 0.05. *)
Theorem shown_averages_close (view : DataFrame) :
  (forall v, avg_adr (kpis view) = Some v ->
     exists m, Stats.mean (map Col.adr view) = Some m
               /\ (m - (1 # 200) <= v <= m + (1 # 200))%Q)
  /\ (forall v, guests_per_booking (kpis view) = Some v ->
        exists m, Stats.mean (map Col.total_guests view) = Some m
                  /\ (m - (1 # 200) <= v <= m + (1 # 200))%Q)
  /\ (forall v, avg_lead_time (kpis view) = Some v ->
        exists m, Stats.mean (map Col.lead_time view) = Some m
                  /\ (m - (1 # 20) <= v <= m + (1 # 20))%Q).
Proof.
  unfold kpis. cbn [avg_adr guests_per_booking avg_lead_time].
  repeat split; intros v H.
  - destruct (Stats.mean (map Col.adr view)) as [m |]; [| discriminate].
    exists m. split; [reflexivity |].
    change (Stats.round (Some m) 2)
      with (Some (inject_Z (Stats.round_half_even (m * (100 # 1)))
                  / (100 # 1))%Q) in H.
    injection H as <-.
    pose proof (round_half_even_close (m * (100 # 1))%Q).
    unfold Qdiv. change (/ (100 # 1))%Q with (1 # 100)%Q. lra.
  - destruct (Stats.mean (map Col.total_guests view)) as [m |];
      [| discriminate].
    exists m. split; [reflexivity |].
    change (Stats.round (Some m) 2)
      with (Some (inject_Z (Stats.round_half_even (m * (100 # 1)))
                  / (100 # 1))%Q) in H.
    injection H as <-.
    pose proof (round_half_even_close (m * (100 # 1))%Q).
    unfold Qdiv. change (/ (100 # 1))%Q with (1 # 100)%Q. lra.
  - destruct (Stats.mean (map Col.lead_time view)) as [m |]; [| discriminate].
    exists m. split; [reflexivity |].
    change (Stats.round (Some m) 1)
      with (Some (inject_Z (Stats.round_half_even (m * (10 # 1)))
                  / (10 # 1))%Q) in H.
    injection H as <-.
    pose proof (round_half_even_close (m * (10 # 1))%Q).
    unfold Qdiv. change (/ (10 # 1))%Q with (1 # 10)%Q. lra.
Qed.

(** ** Months as intervals of time *)

Lemma to_period_M_day (n : Z) :
  to_period_M (Ts n) = Some (period_of_day (n / ns_per_day)).
Proof.
  unfold to_period_M, period_of_day.
  now destruct (civil_year_month (n / ns_per_day)).
Qed.

Lemma doe_bounds (d : Z) : 0 <= doe_of d <= 146096.
Proof. unfold doe_of, era_of. Z.div_mod_to_equations. lia. Qed.

Lemma yoe_bounds (doe : Z) :
  0 <= doe <= 146096 ->
  0 <= yoe_of doe <= 399
  /\ 0 <= doy_of doe <= 365
  /\ (yoe_of doe < 399 ->
      doe < 365 * (yoe_of doe + 1) + (yoe_of doe + 1) / 4
            - (yoe_of doe + 1) / 100).
Proof.
  intros H. unfold doy_of, yoe_of. Z.div_mod_to_equations. lia.
Qed.

Lemma mp_bounds (doy : Z) :
  0 <= doy <= 365 ->
  0 <= mp_of doy <= 11
  /\ (153 * mp_of doy + 2) / 5 <= doy
  /\ (mp_of doy < 11 -> doy < (153 * (mp_of doy + 1) + 2) / 5).
Proof.
  intros H. unfold mp_of. Z.div_mod_to_equations. lia.
Qed.

Lemma period_of_day_steps (d : Z) :
  period_of_day d
  = (yoe_of (doe_of d) + era_of d * 400 - 1970) * 12
    + (mp_of (doy_of (doe_of d)) + 2).
Proof.
  pose proof (doe_bounds d) as Hdoe.
  pose proof (yoe_bounds Hdoe) as (_ & Hdoy & _).
  pose proof (mp_bounds Hdoy) as (Hmp & _).
  unfold period_of_day, civil_year_month, Period. cbv beta iota zeta.
  fold (era_of d). fold (doe_of d). fold (yoe_of (doe_of d)).
  fold (doy_of (doe_of d)). fold (mp_of (doy_of (doe_of d))).
  set (mp := mp_of (doy_of (doe_of d))) in *.
  destruct (Z.ltb_spec mp 10).
  - destruct (Z.leb_spec (mp + 3) 2); [lia | ring].
  - destruct (Z.leb_spec (mp - 9) 2); [ring | lia].
Qed.

Lemma period_first_day_steps (E Y MP : Z) :
  0 <= Y <= 399 ->
  0 <= MP <= 11 ->
  period_first_day ((Y + E * 400 - 1970) * 12 + (MP + 2))
  = E * 146097 + (Y * 365 + Y / 4 - Y / 100 + (153 * MP + 2) / 5) - 719468.
Proof.
  intros HY HM. unfold period_first_day.
  set (p := (Y + E * 400 - 1970) * 12 + (MP + 2)).
  assert (Hq : (MP <= 9 /\ p / 12 = Y + E * 400 - 1970
                /\ p mod 12 = MP + 2)
               \/ (10 <= MP /\ p / 12 = Y + E * 400 - 1969
                   /\ p mod 12 = MP - 10)).
  { subst p. Z.div_mod_to_equations. lia. }
  assert (Hera : (Y + E * 400) / 400 = E).
  { Z.div_mod_to_equations. lia. }
  destruct Hq as [(H1 & -> & ->) | (H1 & -> & ->)];
    unfold days_from_civil; cbv zeta.
  - destruct (Z.leb_spec (MP + 2 + 1) 2); [lia |].
    replace (1970 + (Y + E * 400 - 1970)) with (Y + E * 400) by ring.
    rewrite Hera.
    replace (Y + E * 400 - E * 400) with Y by ring.
    replace (MP + 2 + 1 - 3) with MP by ring. ring.
  - destruct (Z.leb_spec (MP - 10 + 1) 2); [| lia].
    replace (1970 + (Y + E * 400 - 1969) - 1) with (Y + E * 400) by ring.
    rewrite Hera.
    replace (Y + E * 400 - E * 400) with Y by ring.
    replace (MP - 10 + 1 + 9) with MP by ring. ring.
Qed.

Lemma day_in_month (d : Z) :
  period_first_day (period_of_day d) <= d
  < period_first_day (period_of_day d + 1).
Proof.
  pose proof (doe_bounds d) as Hdoe.
  pose proof (yoe_bounds Hdoe) as (HY & Hdoy & Hnext).
  pose proof (mp_bounds Hdoy) as (HM & Hlo & Hhi).
  rewrite period_of_day_steps.
  set (E := era_of d) in *. set (doe := doe_of d) in *.
  set (Y := yoe_of doe) in *. set (MP := mp_of (doy_of doe)) in *.
  assert (Hd : d = E * 146097 + doe - 719468).
  { subst doe E. unfold doe_of. ring. }
  assert (Hdoy' : doy_of doe = doe - (365 * Y + Y / 4 - Y / 100))
    by reflexivity.
  split.
  - rewrite (period_first_day_steps E HY HM). lia.
  - destruct (Z_lt_ge_dec MP 11) as [Hm | Hm].
    + replace ((Y + E * 400 - 1970) * 12 + (MP + 2) + 1)
        with ((Y + E * 400 - 1970) * 12 + (MP + 1 + 2)) by ring.
      rewrite (@period_first_day_steps E Y (MP + 1)) by lia.
      specialize (Hhi Hm). lia.
    + destruct (Z_lt_ge_dec Y 399) as [Hy | Hy].
      * replace ((Y + E * 400 - 1970) * 12 + (MP + 2) + 1)
          with ((Y + 1 + E * 400 - 1970) * 12 + (0 + 2)) by lia.
        rewrite (@period_first_day_steps E (Y + 1) 0) by lia.
        specialize (Hnext Hy). change ((153 * 0 + 2) / 5) with 0. lia.
      * replace ((Y + E * 400 - 1970) * 12 + (MP + 2) + 1)
          with ((0 + (E + 1) * 400 - 1970) * 12 + (0 + 2)) by lia.
        rewrite (@period_first_day_steps (E + 1) 0 0) by lia.
        change (0 * 365 + 0 / 4 - 0 / 100 + (153 * 0 + 2) / 5) with 0. lia.
Qed.

Lemma period_steps (p : Z) :
  exists E Y MP : Z,
    0 <= Y <= 399 /\ 0 <= MP <= 11
    /\ p = (Y + E * 400 - 1970) * 12 + (MP + 2).
Proof.
  exists ((p - 2 + 23640) / 12 / 400), (((p - 2 + 23640) / 12) mod 400),
    ((p - 2 + 23640) mod 12).
  Z.div_mod_to_equations. lia.
Qed.

Lemma march_month_grows (MP : Z) :
  0 <= MP -> (153 * MP + 2) / 5 < (153 * (MP + 1) + 2) / 5.
Proof. intros H. Z.div_mod_to_equations. lia. Qed.

Lemma year_grows (Y : Z) :
  0 <= Y ->
  Y * 365 + Y / 4 - Y / 100 + 337
  < (Y + 1) * 365 + (Y + 1) / 4 - (Y + 1) / 100.
Proof. intros H. Z.div_mod_to_equations. lia. Qed.

Lemma month_nonempty (p : Z) : period_first_day p < period_first_day (p + 1).
Proof.
  destruct (period_steps p) as (E & Y & MP & HY & HM & Hp).
  rewrite Hp at 1. rewrite (period_first_day_steps E HY HM).
  destruct (Z_lt_ge_dec MP 11) as [Hm | Hm].
  - replace (p + 1) with ((Y + E * 400 - 1970) * 12 + (MP + 1 + 2)) by lia.
    rewrite (@period_first_day_steps E Y (MP + 1)) by lia.
    pose proof (@march_month_grows MP ltac:(lia)). lia.
  - assert (HMP : MP = 11) by lia. subst MP.
    change ((153 * 11 + 2) / 5) with 337.
    destruct (Z_lt_ge_dec Y 399) as [Hy | Hy].
    + replace (p + 1) with ((Y + 1 + E * 400 - 1970) * 12 + (0 + 2)) by lia.
      rewrite (@period_first_day_steps E (Y + 1) 0) by lia.
      change ((153 * 0 + 2) / 5) with 0.
      pose proof (@year_grows Y ltac:(lia)). lia.
    + assert (HY' : Y = 399) by lia. subst Y.
      replace (p + 1) with ((0 + (E + 1) * 400 - 1970) * 12 + (0 + 2)) by lia.
      rewrite (@period_first_day_steps (E + 1) 0 0) by lia.
      change (0 * 365 + 0 / 4 - 0 / 100 + (153 * 0 + 2) / 5) with 0.
      change (399 * 365 + 399 / 4 - 399 / 100) with 145731. lia.
Qed.

Lemma period_first_day_mono (p q : Z) :
  p < q -> period_first_day p < period_first_day q.
Proof.
  intros H.
  replace q with (p + 1 + Z.of_nat (Z.to_nat (q - p - 1)))
    by (rewrite Z2Nat.id; lia).
  induction (Z.to_nat (q - p - 1)) as [| n IH].
  - rewrite Z.add_0_r. apply month_nonempty.
  - rewrite Nat2Z.inj_succ.
    replace (p + 1 + Z.succ (Z.of_nat n)) with (p + 1 + Z.of_nat n + 1) by lia.
    eapply Z.lt_trans; [exact IH | apply month_nonempty].
Qed.

Lemma period_of_day_iff (d p : Z) :
  period_of_day d = p <-> period_first_day p <= d < period_first_day (p + 1).
Proof.
  split.
  - intros <-. apply day_in_month.
  - intros [Hlo Hhi]. pose proof (day_in_month d) as [Hlo' Hhi'].
    destruct (Z.lt_trichotomy (period_of_day d) p) as [Hlt | [Heq | Hgt]].
    + assert (Hle : period_first_day (period_of_day d + 1) <= period_first_day p).
      { destruct (Z.eq_dec (period_of_day d + 1) p) as [-> | Hne]; [lia |].
        apply Z.lt_le_incl, period_first_day_mono. lia. }
      lia.
    + exact Heq.
    + assert (Hle : period_first_day (p + 1) <= period_first_day (period_of_day d)).
      { destruct (Z.eq_dec (p + 1) (period_of_day d)) as [-> | Hne]; [lia |].
        apply Z.lt_le_incl, period_first_day_mono. lia. }
      lia.
Qed.

Lemma to_period_M_interval (t p : Z) :
  to_period_M (Ts t) = Some p <->
  period_start p <= t < period_start (p + 1).
Proof.
  rewrite to_period_M_day. unfold period_start.
  pose proof (Z.div_mod t ns_per_day ltac:(vm_compute; discriminate)) as Hd.
  pose proof (Z.mod_pos_bound t ns_per_day ns_per_day_pos) as Hr.
  set (d := t / ns_per_day) in *. set (r := t mod ns_per_day) in *.
  split.
  - intros H. injection H as H. apply period_of_day_iff in H.
    unfold ns_per_day in *. lia.
  - intros H. f_equal. apply period_of_day_iff.
    unfold ns_per_day in *. lia.
Qed.

Lemma period_start_mono (p q : Z) :
  p < q -> period_start p < period_start q.
Proof.
  intros H. unfold period_start.
  apply Z.mul_lt_mono_pos_r; [exact ns_per_day_pos |].
  now apply period_first_day_mono.
Qed.

Lemma to_period_M_start (p : Z) : to_period_M (to_timestamp p) = Some p.
Proof.
  apply to_period_M_interval.
  pose proof (@period_start_mono p (p + 1)). lia.
Qed.

(** X15. A month is an interval of time: a timestamp is put in month
    [p] exactly when it is at or after the first instant of [p] and
    before the first instant of the month after [p].  Hence a later
    timestamp never falls in an earlier month. *)
Theorem month_is_interval :
  (forall t p : Z,
     to_period_M (Ts t) = Some p <->
     period_start p <= t < period_start (p + 1))
  /\ (forall t1 t2 p1 p2 : Z,
        t1 <= t2 ->
        to_period_M (Ts t1) = Some p1 ->
        to_period_M (Ts t2) = Some p2 ->
        p1 <= p2).
Proof.
  split; [exact to_period_M_interval |].
  intros t1 t2 p1 p2 Hle H1 H2.
  apply to_period_M_interval in H1. apply to_period_M_interval in H2.
  destruct (Z_le_gt_dec p1 p2) as [Hok | Hgt]; [exact Hok |].
  assert (Hs : period_start (p2 + 1) <= period_start p1).
  { destruct (Z.eq_dec (p2 + 1) p1) as [-> | Hne]; [lia |].
    apply Z.lt_le_incl, period_start_mono. lia. }
  lia.
Qed.



(** ** Monthly average of parking spaces *)

Lemma sizes_push (k : Period) (v : option Q)
      (acc : list (Period * list (option Q))) :
  sizes (GroupMean.push k v acc) = GroupBy.bump k (sizes acc).
Proof.
  unfold sizes. induction acc as [| [k' vs] rest IH]; [reflexivity |].
  cbn [GroupMean.push map GroupBy.bump fst snd].
  destruct (k <? k'); [reflexivity |].
  destruct (k =? k').
  - cbn [map fst snd]. now rewrite length_app, Nat.add_1_r.
  - cbn [map fst snd]. now rewrite IH.
Qed.

Lemma sizes_fold (keys : list (option Period)) :
  forall (vals : list (option Q)) (acc : list (Period * list (option Q))),
    List.length vals = List.length keys ->
    sizes (fold_left GroupMean.step (combine keys vals) acc)
    = fold_left GroupBy.step keys (sizes acc).
Proof.
  induction keys as [| k keys IH]; intros vals acc Hlen.
  - reflexivity.
  - destruct vals as [| v vals]; [discriminate |].
    cbn [combine fold_left]. rewrite IH by (cbn in Hlen; lia).
    f_equal. unfold GroupMean.step, GroupBy.step. cbn [fst snd].
    destruct k; [apply sizes_push | reflexivity].
Qed.

Lemma sizes_keys (acc : list (Period * list (option Q))) :
  map fst (sizes acc) = map fst acc.
Proof. unfold sizes. rewrite map_map. reflexivity. Qed.

Lemma values_of_absent (k : Period) (acc : list (Period * list (option Q))) :
  Forall (fun j => k < j) (map fst acc) -> values_of k acc = [].
Proof.
  induction acc as [| [k' vs] rest IH]; intros H; [reflexivity |].
  inversion H as [| ? ? Hk Hrest]; subst. cbn in Hk |- *.
  destruct (k =? k') eqn:E; [apply Z.eqb_eq in E; lia | now apply IH].
Qed.

Lemma values_of_push (j k : Period) (v : option Q)
      (acc : list (Period * list (option Q))) :
  StronglySorted Z.lt (map fst acc) ->
  values_of j (GroupMean.push k v acc)
  = values_of j acc ++ (if k =? j then [v] else []).
Proof.
  induction acc as [| [k' vs] rest IH]; intros Hs;
    cbn [GroupMean.push values_of].
  - rewrite (Z.eqb_sym j k). now destruct (k =? j).
  - cbn in Hs. inversion Hs as [| ? ? Hrest Hall]; subst.
    destruct (k <? k') eqn:Elt; [| destruct (k =? k') eqn:Eeq];
      cbn [values_of].
    + apply Z.ltb_lt in Elt.
      rewrite (Z.eqb_sym j k). destruct (k =? j) eqn:Ekj.
      * apply Z.eqb_eq in Ekj. subst j.
        destruct (k =? k') eqn:E; [apply Z.eqb_eq in E; lia |].
        rewrite values_of_absent; [reflexivity |].
        eapply Forall_impl; [| exact Hall]. cbn. intros; lia.
      * now rewrite app_nil_r.
    + apply Z.eqb_eq in Eeq. subst k'.
      rewrite (Z.eqb_sym j k). destruct (k =? j);
        [reflexivity | now rewrite app_nil_r].
    + apply Z.eqb_neq in Eeq.
      destruct (j =? k') eqn:Ej.
      * apply Z.eqb_eq in Ej. subst k'.
        destruct (k =? j) eqn:E; [apply Z.eqb_eq in E; lia |].
        now rewrite app_nil_r.
      * now apply IH.
Qed.

Lemma push_sorted (k : Period) (v : option Q)
      (acc : list (Period * list (option Q))) :
  StronglySorted Z.lt (map fst acc) ->
  StronglySorted Z.lt (map fst (GroupMean.push k v acc)).
Proof.
  intros Hs. rewrite <- sizes_keys, sizes_push.
  apply bump_sorted. now rewrite sizes_keys.
Qed.

Lemma values_of_fold (j : Period) (kvs : list (option Period * option Q)) :
  forall acc : list (Period * list (option Q)),
    StronglySorted Z.lt (map fst acc) ->
    values_of j (fold_left GroupMean.step kvs acc)
    = values_of j acc ++ picks j kvs.
Proof.
  induction kvs as [| [[q |] v] kvs IH]; intros acc Hs;
    cbn [fold_left picks].
  - now rewrite app_nil_r.
  - unfold GroupMean.step at 2. cbn [fst snd].
    rewrite IH by now apply push_sorted.
    rewrite values_of_push by assumption.
    rewrite <- app_assoc. now destruct (q =? j).
  - unfold GroupMean.step at 2. cbn [fst snd]. now apply IH.
Qed.

Lemma picks_rows (p : Period) (f : Booking -> option Q) (view : DataFrame) :
  picks p (combine (map (fun r => to_period_M (Col.arrival_date r)) view)
                   (map f view))
  = map f (filter (in_month p) view).
Proof.
  induction view as [| r view IH]; [reflexivity |].
  cbn [map combine picks filter]. unfold in_month at 1.
  destruct (to_period_M (Col.arrival_date r)) as [q |]; [| exact IH].
  destruct (q =? p); cbn [map]; now rewrite IH.
Qed.

Lemma group_entry (p : Period) (vs : list (option Q))
      (acc : list (Period * list (option Q))) :
  StronglySorted Z.lt (map fst acc) ->
  Forall (fun g => snd g <> []) acc ->
  In (p, vs) acc <-> values_of p acc = vs /\ vs <> [].
Proof.
  intros Hs Hp. induction acc as [| [k' ws] rest IH]; cbn [In values_of].
  - split; [contradiction | intros [<- H]; congruence].
  - cbn in Hs. inversion Hs as [| ? ? Hrest Hall]; subst.
    inversion Hp as [| ? ? Hw Hprest]; subst. cbn in Hw.
    specialize (IH Hrest Hprest). split.
    + intros [Heq | Hin].
      * inversion Heq; subst. rewrite Z.eqb_refl. now split.
      * destruct (p =? k') eqn:E.
        -- apply Z.eqb_eq in E. subst k'.
           rewrite Forall_forall in Hall.
           specialize (Hall p (in_map fst _ _ Hin)). lia.
        -- now apply IH.
    + intros [Hc Hn]. destruct (p =? k') eqn:E.
      * apply Z.eqb_eq in E. subst. now left.
      * right. apply IH. now split.
Qed.

Lemma groups_nonempty (acc : list (Period * list (option Q))) :
  Forall (fun e => (1 <= snd e)%nat) (sizes acc) ->
  Forall (fun g => snd g <> []) acc.
Proof.
  unfold sizes. rewrite Forall_map. apply Forall_impl.
  intros [k vs]. cbn. destruct vs; cbn; [lia | discriminate].
Qed.

(** X17. The monthly parking series of line 103 has exactly the months
    of the monthly booking series, in the same ascending order, and the
    value of a month is the mean of [required_car_parking_spaces] over
    the rows of the view arriving in that month (missing values skipped,
    NaN when none is left).  Line 104 labels each point with the first
    instant of its month, from which the month is read back. *)
Theorem parking_month_series (view : DataFrame) :
  map fst (parking_month view) = map fst (monthly view)
  /\ (forall (p : Period) (v : option Q),
        In (p, v) (parking_month view) <->
        (1 <= bucket p view)%nat
        /\ v = Stats.mean (map Col.required_car_parking_spaces
                               (filter (in_month p) view)))
  /\ map (fun e => (to_period_M (fst e), snd e)) (parking_chart view)
     = map (fun e => (Some (fst e), snd e)) (parking_month view).
Proof.
  cut (map fst (parking_month view) = map fst (monthly view)
       /\ forall (p : Period) (v : option Q),
            In (p, v) (parking_month view) <->
            (1 <= bucket p view)%nat
            /\ v = Stats.mean (map Col.required_car_parking_spaces
                                   (filter (in_month p) view))).
  { intros [H1 H2]. split; [exact H1 | split; [exact H2 |]].
    unfold parking_chart. rewrite map_map. apply map_ext.
    intros e. cbn [fst snd]. now rewrite to_period_M_start. }
  unfold parking_month, GroupMean.mean, GroupMean.groups, monthly,
    GroupBy.size.
  set (keys := map (fun r => to_period_M (Col.arrival_date r)) view).
  set (vals := map Col.required_car_parking_spaces view).
  set (g := fold_left GroupMean.step (combine keys vals) []).
  assert (Hsz : sizes g = fold_left GroupBy.step keys []).
  { unfold g. rewrite sizes_fold; [reflexivity |].
    unfold keys, vals. now rewrite !length_map. }
  destruct (fold_step_invariants keys table_ok_nil) as ([Hs Hpos] & _ & _).
  rewrite <- Hsz in Hs, Hpos. rewrite sizes_keys in Hs.
  apply groups_nonempty in Hpos.
  split.
  - rewrite map_map. cbn [fst]. now rewrite <- Hsz, sizes_keys.
  - intros p v.
    assert (Hvals : values_of p g
                    = map Col.required_car_parking_spaces
                          (filter (in_month p) view)).
    { unfold g. rewrite values_of_fold by constructor.
      unfold keys, vals. apply picks_rows. }
    assert (Hb : (1 <= bucket p view)%nat <-> values_of p g <> []).
    { rewrite Hvals. unfold bucket.
      destruct (filter (in_month p) view); cbn; split;
        try lia; try congruence; intros _; discriminate. }
    rewrite in_map_iff. split.
    + intros [[q vs] [Heq Hin]]. cbn [fst snd] in Heq.
      inversion Heq; subst.
      apply (group_entry _ _ Hs Hpos) in Hin. destruct Hin as [Hv Hne].
      split; [apply Hb; congruence | now rewrite <- Hvals, Hv].
    + intros [Hn ->]. exists (p, values_of p g). split.
      * cbn [fst snd]. now rewrite Hvals.
      * apply (group_entry _ _ Hs Hpos). split; [reflexivity | now apply Hb].
Qed.

(** ** What the country chart shows and leaves out *)

Lemma value_counts_facts (c : list cell) :
  (forall (k : cell) (n : nat),
     In (k, n) (Counts.value_counts c) <->
     In k (filter Counts.notna c)
     /\ n = Counts.count k (filter Counts.notna c))
  /\ StronglySorted (ranks_before (filter Counts.notna c))
                    (Counts.value_counts c)
  /\ Permutation (Counts.value_counts c)
                 (map (fun k => (k, Counts.count k (filter Counts.notna c)))
                      (Series.unique (filter Counts.notna c))).
Proof.
  unfold Counts.value_counts.
  set (v := filter Counts.notna c).
  set (tallies := map (fun k => (k, Counts.count k v)) (Series.unique v)).
  destruct (unique_acc_spec v []) as (Hin & _ & Hs).
  fold (Series.unique v) in Hin, Hs.
  split; [| split].
  - intros k n. split.
    + intros H. apply (Permutation_in _ (sort_desc_perm tallies)) in H.
      unfold tallies in H. apply in_map_iff in H.
      destruct H as [k' [Heq Hk']]. inversion Heq; subst.
      apply Hin in Hk'. tauto.
    + intros [Hk ->].
      apply (Permutation_in _ (Permutation_sym (sort_desc_perm tallies))).
      unfold tallies. apply in_map_iff. exists k. split; [reflexivity |].
      apply Hin. cbn. tauto.
  - apply sort_desc_ranked. unfold tallies.
    apply StronglySorted_map. cbn [fst]. exact Hs.
  - apply sort_desc_perm.
Qed.

Lemma top_countries_firstn (view : DataFrame) :
  top_countries view
  = firstn 10 (Counts.value_counts (canceled_countries view)).
Proof.
  unfold top_countries, Counts.nlargest.
  destruct (value_counts_facts (canceled_countries view)) as (_ & Hs & _).
  now rewrite (sort_desc_fixed Hs).
Qed.

Lemma StronglySorted_cross (A : Type) (R : A -> A -> Prop) (l1 l2 : list A) :
  StronglySorted R (l1 ++ l2) ->
  forall a b, In a l1 -> In b l2 -> R a b.
Proof.
  induction l1 as [| x l1 IH]; intros Hs a b Ha Hb; [contradiction |].
  cbn in Hs. inversion Hs as [| ? ? Hrest Hall]; subst.
  destruct Ha as [-> | Ha].
  - rewrite Forall_forall in Hall. apply Hall, in_or_app. now right.
  - now apply IH.
Qed.

Lemma firstn_member (A : Type) (n : nat) (l : list A) (x : A) :
  In x (firstn n l) -> In x l.
Proof.
  intros H. rewrite <- (firstn_skipn n l). apply in_or_app. now left.
Qed.

Lemma count_positive (k : cell) (c : list cell) :
  In k c -> (1 <= Counts.count k c)%nat.
Proof.
  intros H. unfold Counts.count.
  assert (Hf : In k (filter (cell_eqb k) c)).
  { apply filter_In. split; [assumption | apply cell_eqb_refl]. }
  destruct (filter (cell_eqb k) c); [contradiction | cbn; lia].
Qed.

(** X18. The country chart shows at most ten countries, each with at
    least one cancellation and never a missing country; and a country
    with cancellations that is left out has no more cancellations than
    any country shown. *)
Theorem top_countries_are_top (view : DataFrame) :
  (List.length (top_countries view) <= 10)%nat
  /\ (forall (k : cell) (n : nat),
        In (k, n) (top_countries view) -> k <> None /\ (1 <= n)%nat)
  /\ (forall (k k' : cell) (n : nat),
        In (k, n) (top_countries view) ->
        In k' (ranked_countries view) ->
        ~ In k' (map fst (top_countries view)) ->
        (Counts.count k' (ranked_countries view) <= n)%nat).
Proof.
  rewrite top_countries_firstn.
  destruct (value_counts_facts (canceled_countries view)) as (Hin & Hs & _).
  fold (ranked_countries view) in Hin, Hs.
  set (R := Counts.value_counts (canceled_countries view)) in *.
  split; [apply firstn_le_length | split].
  - intros k n H. apply firstn_member in H. apply Hin in H.
    destruct H as [Hk ->]. split; [| now apply count_positive].
    unfold ranked_countries in Hk. apply filter_In in Hk.
    destruct Hk as [_ Hk]. destruct k; [discriminate | discriminate].
  - intros k k' n Hk Hk' Hout.
    assert (Hr : In (k', Counts.count k' (ranked_countries view)) R).
    { apply Hin. now split. }
    rewrite <- (firstn_skipn 10 R) in Hr, Hs.
    apply in_app_or in Hr. destruct Hr as [Hr | Hr].
    + exfalso. apply Hout.
      change k' with (fst (k', Counts.count k' (ranked_countries view))).
      now apply in_map.
    + pose proof (@StronglySorted_cross _ _ _ _ Hs _ _ Hk Hr) as Hrank.
      unfold ranks_before in Hrank. cbn [fst snd] in Hrank. lia.
Qed.

Lemma sum_counts_perm (A : Type) (l l' : list (A * nat)) :
  Permutation l l' -> sum_counts l = sum_counts l'.
Proof.
  induction 1 as [| x l l' _ IH | x y l | l l' l'' _ IH1 _ IH2]; cbn.
  - reflexivity.
  - fold (sum_counts l). fold (sum_counts l'). now rewrite IH.
  - fold (sum_counts l). lia.
  - congruence.
Qed.

Lemma sum_counts_firstn (A : Type) (n : nat) (l : list (A * nat)) :
  (sum_counts (firstn n l) <= sum_counts l)%nat.
Proof.
  revert n. induction l as [| x l IH]; intros [| n]; cbn; try lia.
  fold (sum_counts (firstn n l)). fold (sum_counts l).
  specialize (IH n). lia.
Qed.

Lemma count_split (k : cell) (u v : list cell) :
  ~ In k u ->
  List.length (filter (fun x => existsb (cell_eqb x) (k :: u)) v)
  = (Counts.count k v
     + List.length (filter (fun x => existsb (cell_eqb x) u) v))%nat.
Proof.
  intros Hk. unfold Counts.count.
  induction v as [| x v IH]; [reflexivity |].
  cbn [filter existsb].
  destruct (cell_eq_dec x k) as [-> | Hne].
  - rewrite cell_eqb_refl. cbn [orb].
    destruct (existsb (cell_eqb k) u) eqn:E.
    + apply existsb_cell_In in E. contradiction.
    + cbn [List.length]. cbn [existsb] in IH. rewrite IH. lia.
  - assert (E1 : cell_eqb x k = false).
    { destruct (cell_eqb x k) eqn:E; [| reflexivity].
      apply cell_eqb_eq in E. contradiction. }
    assert (E2 : cell_eqb k x = false).
    { destruct (cell_eqb k x) eqn:E; [| reflexivity].
      apply cell_eqb_eq in E. congruence. }
    rewrite E1, E2. cbn [orb]. cbn [existsb] in IH.
    destruct (existsb (cell_eqb x) u); cbn [List.length]; rewrite IH; lia.
Qed.

Lemma tallies_sum (u v : list cell) :
  NoDup u ->
  sum_counts (map (fun k => (k, Counts.count k v)) u)
  = List.length (filter (fun x => existsb (cell_eqb x) u) v).
Proof.
  induction 1 as [| k u Hk _ IH]; cbn [map sum_counts fold_right snd].
  - cbn. induction v; [reflexivity | assumption].
  - fold (sum_counts (map (fun k0 => (k0, Counts.count k0 v)) u)).
    rewrite IH. symmetry. now apply count_split.
Qed.

Lemma value_counts_total (c : list cell) :
  sum_counts (Counts.value_counts c) = List.length (filter Counts.notna c).
Proof.
  destruct (value_counts_facts c) as (_ & _ & Hp).
  rewrite (sum_counts_perm Hp).
  destruct (unique_acc_spec (filter Counts.notna c) []) as (_ & Hnd & _).
  rewrite tallies_sum by exact Hnd.
  f_equal. apply filter_all. intros x Hx.
  apply existsb_cell_In. now apply unique_complete.
Qed.

(** X19. The bars of the country chart never add up to more than the
    canceled rows that have a country, which are no more than the
    canceled rows; and when at most ten countries have cancellations the
    bars account for every canceled row that has a country. *)
Theorem top_countries_total (view : DataFrame) :
  (sum_counts (top_countries view)
   <= List.length (ranked_countries view))%nat
  /\ (List.length (ranked_countries view) <= count_canceled view)%nat
  /\ ((List.length (Series.unique (ranked_countries view)) <= 10)%nat ->
      sum_counts (top_countries view) = List.length (ranked_countries view)).
Proof.
  rewrite top_countries_firstn.
  pose proof (value_counts_total (canceled_countries view)) as Htot.
  fold (ranked_countries view) in Htot.
  split; [| split].
  - rewrite <- Htot. apply sum_counts_firstn.
  - unfold ranked_countries, count_canceled.
    rewrite canceled_countries_rows.
    etransitivity; [apply filter_length_bound |].
    now rewrite length_map.
  - intros Hten.
    destruct (value_counts_facts (canceled_countries view)) as (_ & _ & Hp).
    fold (ranked_countries view) in Hp.
    rewrite firstn_all2; [exact Htot |].
    rewrite (Permutation_length Hp), length_map. exact Hten.
Qed.

Lemma top_countries_total_witness :
  (List.length (Series.unique (ranked_countries df_sample)) <= 10)%nat
  /\ sum_counts (top_countries df_sample)
     = List.length (ranked_countries df_sample).
Proof.
  assert (H : (List.length (Series.unique (ranked_countries df_sample))
               <= 10)%nat) by (vm_compute; lia).
  split; [exact H |].
  exact (proj2 (proj2 (top_countries_total df_sample)) H).
Defined.
